(** * fabric.connection: a shallow embedding of [Connection]

    The development follows [src/fabric/connection.py].  Python values are
    modelled as the code uses them: [None] is [option]'s [None], dictionaries
    are finite maps, raised exceptions are the [Raise] outcome of a result
    type, and every call that leaves the module (the SSH client, its
    transport, sockets, tunnel threads) is recorded as an event of a trace
    carried by an explicit world. *)

From Stdlib Require Import ZArith Ascii String List Bool Lia.
From stdpp Require Import base option gmap strings list.

Set Warnings "-register-all".

Local Open Scope string_scope.
Local Open Scope Z_scope.

(** ** Python values, results and exceptions *)

Module Py.

(** Exceptions the module raises or lets through.  [ThreadException] is
    invoke's aggregate: it carries the wrappers of the worker failures. *)
Inductive exn : Type :=
| ValueError (msg : string)
| KeyError (key : string)
| TypeError (msg : string)
| AttributeError (msg : string)
| IndexError (msg : string)
| RecursionError
| SocketError (msg : string)
| SSHException (msg : string)
| UserException (msg : string)
| ThreadException (exceptions : list ExceptionWrapper)
with ExceptionWrapper : Type :=
| mkExceptionWrapper (value : exn).

Definition value (w : ExceptionWrapper) : exn :=
  match w with mkExceptionWrapper e => e end.

Inductive exn_class : Type :=
| ValueError_cls | KeyError_cls | TypeError_cls | AttributeError_cls
| IndexError_cls | RecursionError_cls | SocketError_cls | SSHException_cls
| UserException_cls | ThreadException_cls.

Definition class_of (e : exn) : exn_class :=
  match e with
  | ValueError _ => ValueError_cls
  | KeyError _ => KeyError_cls
  | TypeError _ => TypeError_cls
  | AttributeError _ => AttributeError_cls
  | IndexError _ => IndexError_cls
  | RecursionError => RecursionError_cls
  | SocketError _ => SocketError_cls
  | SSHException _ => SSHException_cls
  | UserException _ => UserException_cls
  | ThreadException _ => ThreadException_cls
  end.

(** [wrapper.type]: the class of the wrapped exception. *)
Definition type (w : ExceptionWrapper) : exn_class := class_of (value w).

Definition is_ThreadException (c : exn_class) : bool :=
  match c with ThreadException_cls => true | _ => false end.

(** The outcome of a call: a returned value or a raised exception. *)
Inductive Result (A : Type) : Type :=
| Ok (a : A)
| Raise (e : exn).
Arguments Ok {A} a.
Arguments Raise {A} e.

Definition bind {A B : Type} (r : Result A) (k : A -> Result B) : Result B :=
  match r with
  | Ok a => k a
  | Raise e => Raise e
  end.

(** Truth value of a string and of an optional value, as [if x] and
    [x or y] test them. *)
Definition truthy_str (s : string) : bool :=
  match s with EmptyString => false | String _ _ => true end.

Definition truthy_opt_str (o : option string) : bool :=
  match o with Some s => truthy_str s | None => false end.

Definition truthy_opt_Z (o : option Z) : bool :=
  match o with Some z => negb (z =? 0) | None => false end.

Definition truthy_opt_bool (o : option bool) : bool :=
  match o with Some b => b | None => false end.

(** ** The string methods the module calls *)

(** [s.count(c)] for a one-character [c]. *)
Fixpoint count (s : string) (c : ascii) : nat :=
  match s with
  | EmptyString => O
  | String a rest =>
      if Ascii.eqb a c then S (count rest c) else count rest c
  end.

(** The last occurrence of [c] in [s], as the text before and after it. *)
Fixpoint split_last (s : string) (c : ascii) : option (string * string) :=
  match s with
  | EmptyString => None
  | String a rest =>
      match split_last rest c with
      | Some (pre, post) => Some (String a pre, post)
      | None => if Ascii.eqb a c then Some (EmptyString, rest) else None
      end
  end.

(** [s.rsplit(c, 1)]. *)
Definition rsplit1 (s : string) (c : ascii) : list string :=
  match split_last s c with
  | Some (pre, post) => [pre; post]
  | None => [s]
  end.

(** [l.pop()] and [l.pop(0)]: the removed element and what is left. *)
Definition pop {A : Type} (l : list A) : Result (A * list A) :=
  match rev l with
  | x :: r => Ok (x, rev r)
  | [] => Raise (IndexError "pop from empty list")
  end.

Definition pop0 {A : Type} (l : list A) : Result (A * list A) :=
  match l with
  | x :: r => Ok (x, r)
  | [] => Raise (IndexError "pop from empty list")
  end.

(** [l[0] if l and l[0] else None] on a list of strings. *)
Definition first_truthy (l : list string) : option string :=
  match l with
  | x :: _ => if truthy_str x then Some x else None
  | [] => None
  end.

Definition is_space (a : ascii) : bool :=
  let n := nat_of_ascii a in
  (Nat.eqb n 32 || (Nat.leb 9 n && Nat.leb n 13))%bool.

Fixpoint lstrip (s : string) : string :=
  match s with
  | String a rest => if is_space a then lstrip rest else s
  | EmptyString => EmptyString
  end.

Fixpoint rstrip (s : string) : string :=
  match s with
  | EmptyString => EmptyString
  | String a rest =>
      match rstrip rest with
      | EmptyString => if is_space a then EmptyString else String a EmptyString
      | r => String a r
      end
  end.

Definition strip (s : string) : string := rstrip (lstrip s).

Definition digit_of (a : ascii) : option Z :=
  let n := nat_of_ascii a in
  if (Nat.leb 48 n && Nat.leb n 57)%bool
  then Some (Z.of_nat (n - 48))
  else None.

Fixpoint digits (acc : Z) (s : string) : option Z :=
  match s with
  | EmptyString => Some acc
  | String a rest =>
      match digit_of a with
      | Some d => digits (10 * acc + d) rest
      | None => None
      end
  end.

(** [int(s)] on a string: surrounding blanks, an optional sign and ASCII
    decimal digits; anything else raises [ValueError]. *)
Definition int_of_str (s : string) : Result Z :=
  let err :=
    Raise (ValueError ("invalid literal for int() with base 10: " +:+ s)) in
  let unsigned (t : string) (sign : Z) :=
    match t with
    | EmptyString => err
    | _ => match digits 0 t with Some z => Ok (sign * z) | None => err end
    end in
  match strip s with
  | String "-" t => unsigned t (-1)
  | String "+" t => unsigned t 1
  | t => unsigned t 1
  end.

(** [str(x)] for an integer, used by [format]. *)
Fixpoint str_of_pos_fuel (fuel : nat) (n : Z) (acc : string) : string :=
  match fuel with
  | O => acc
  | S fuel' =>
      let d := ascii_of_nat (48 + Z.to_nat (n mod 10)) in
      let acc' := String d acc in
      if n / 10 =? 0 then acc' else str_of_pos_fuel fuel' (n / 10) acc'
  end.

Definition str_of_Z (z : Z) : string :=
  if z <? 0
  then String "-" (str_of_pos_fuel (S (Z.to_nat (Z.log2 (- z)))) (- z)
                                   EmptyString)
  else str_of_pos_fuel (S (Z.to_nat (Z.log2 z))) z EmptyString.

(** [str(x)] / [{0}] for a value that may be [None]. *)
Definition str_of_opt (o : option string) : string :=
  match o with Some s => s | None => "None" end.

End Py.
Import Py.

(** ** Collaborator objects *)

(** A [paramiko.channel.Channel]: which transport opened it, and the
    arguments of the request that created it. *)
Record Channel : Type := mkChannel {
  chan_id : nat;
  chan_transport : nat;
  chan_kind : string;
  chan_dest_addr : option string * Z;
  chan_src_addr : string * Z
}.

(** What [SSHClient.connect] can receive as [sock]. *)
Inductive Sock : Type :=
| SockProxyCommand (command : string)
| SockChannel (ch : Channel)
| SockOther (name : string).

(** Values of the keyword arguments handed to [SSHClient.connect]. *)
Inductive KwVal : Type :=
| KwNone
| KwStr (s : string)
| KwInt (z : Z)
| KwSock (s : Sock).

Definition kw_opt_str (o : option string) : KwVal :=
  match o with Some s => KwStr s | None => KwNone end.

Definition kw_opt_Z (o : option Z) : KwVal :=
  match o with Some z => KwInt z | None => KwNone end.

(** A [paramiko.transport.Transport]; [active] is its only attribute the
    module reads. *)
Record Transport : Type := mkTransport {
  transport_id : nat;
  active : bool
}.

Inductive HostKeyPolicy : Type := RejectPolicy | AutoAddPolicy.

(** A [paramiko.client.SSHClient] as [__init__] leaves it. *)
Record SSHClient : Type := mkSSHClient {
  missing_host_key_policy : HostKeyPolicy
}.

Record SFTPClient : Type := mkSFTPClient { sftp_id : nat }.

Record AgentRequestHandler : Type := mkAgentRequestHandler {
  handler_channel : nat
}.

(** ** Configuration and connections *)

(** The part of [fabric.config.Config] that [Connection] reads.  The type
    of gateways is a parameter because a configured gateway may itself be
    a connection. *)
Record Config_ (G : Type) : Type := mkConfig {
  base_ssh_config : option string -> gmap string string;
  config_user : option string;
  config_port : Z;
  config_gateway : G;
  config_forward_agent : bool;
  config_connect_kwargs : gmap string KwVal
}.
Arguments mkConfig {G}.
Arguments base_ssh_config {G}.
Arguments config_user {G}.
Arguments config_port {G}.
Arguments config_gateway {G}.
Arguments config_forward_agent {G}.
Arguments config_connect_kwargs {G}.

(** The attributes of a [Connection] object.  Every attribute starts as the
    class-level [None]. *)
Record Connection_ (G : Type) : Type := mkConnection {
  config : option (Config_ G);
  host : option string;
  original_host : option string;
  user : option string;
  port : option Z;
  ssh_config : option (gmap string string);
  gateway : G;
  forward_agent : option bool;
  connect_kwargs : option (gmap string KwVal);
  client : option SSHClient;
  transport : option Transport;
  _sftp : option SFTPClient;
  _agent_handler : option AgentRequestHandler
}.
Arguments mkConnection {G}.
Arguments config {G}.
Arguments host {G}.
Arguments original_host {G}.
Arguments user {G}.
Arguments port {G}.
Arguments ssh_config {G}.
Arguments gateway {G}.
Arguments forward_agent {G}.
Arguments connect_kwargs {G}.
Arguments client {G}.
Arguments transport {G}.
Arguments _sftp {G}.
Arguments _agent_handler {G}.

(** The values the [gateway] attribute takes: [None], an explicit falsy
    override such as [False], a command string, or another connection. *)
Inductive Gateway : Type :=
| GwNone
| GwFalse
| GwCommand (command : string)
| GwJump (cxn : Connection_ Gateway).

Abbreviation Connection := (Connection_ Gateway).
Abbreviation Config := (Config_ Gateway).

(** [if self.gateway]: a connection object is truthy (it proxies a
    configuration that is never empty), a string is truthy unless empty. *)
Definition truthy_gateway (g : Gateway) : bool :=
  match g with
  | GwNone | GwFalse => false
  | GwCommand c => truthy_str c
  | GwJump _ => true
  end.

(** Attribute assignment, one setter per attribute the module writes. *)
Section Setters.
Context {G : Type}.
Implicit Type self : Connection_ G.

Definition set_config (v : option (Config_ G)) self : Connection_ G :=
  let 'mkConnection _ a2 a3 a4 a5 a6 a7 a8 a9 a10 a11 a12 a13 := self in
  mkConnection v a2 a3 a4 a5 a6 a7 a8 a9 a10 a11 a12 a13.

Definition set_host (v : option string) self : Connection_ G :=
  let 'mkConnection a1 _ a3 a4 a5 a6 a7 a8 a9 a10 a11 a12 a13 := self in
  mkConnection a1 v a3 a4 a5 a6 a7 a8 a9 a10 a11 a12 a13.

Definition set_original_host (v : option string) self : Connection_ G :=
  let 'mkConnection a1 a2 _ a4 a5 a6 a7 a8 a9 a10 a11 a12 a13 := self in
  mkConnection a1 a2 v a4 a5 a6 a7 a8 a9 a10 a11 a12 a13.

Definition set_user (v : option string) self : Connection_ G :=
  let 'mkConnection a1 a2 a3 _ a5 a6 a7 a8 a9 a10 a11 a12 a13 := self in
  mkConnection a1 a2 a3 v a5 a6 a7 a8 a9 a10 a11 a12 a13.

Definition set_port (v : option Z) self : Connection_ G :=
  let 'mkConnection a1 a2 a3 a4 _ a6 a7 a8 a9 a10 a11 a12 a13 := self in
  mkConnection a1 a2 a3 a4 v a6 a7 a8 a9 a10 a11 a12 a13.

Definition set_ssh_config (v : option (gmap string string)) self
  : Connection_ G :=
  let 'mkConnection a1 a2 a3 a4 a5 _ a7 a8 a9 a10 a11 a12 a13 := self in
  mkConnection a1 a2 a3 a4 a5 v a7 a8 a9 a10 a11 a12 a13.

Definition set_gateway (v : G) self : Connection_ G :=
  let 'mkConnection a1 a2 a3 a4 a5 a6 _ a8 a9 a10 a11 a12 a13 := self in
  mkConnection a1 a2 a3 a4 a5 a6 v a8 a9 a10 a11 a12 a13.

Definition set_forward_agent (v : option bool) self : Connection_ G :=
  let 'mkConnection a1 a2 a3 a4 a5 a6 a7 _ a9 a10 a11 a12 a13 := self in
  mkConnection a1 a2 a3 a4 a5 a6 a7 v a9 a10 a11 a12 a13.

Definition set_connect_kwargs (v : option (gmap string KwVal)) self
  : Connection_ G :=
  let 'mkConnection a1 a2 a3 a4 a5 a6 a7 a8 _ a10 a11 a12 a13 := self in
  mkConnection a1 a2 a3 a4 a5 a6 a7 a8 v a10 a11 a12 a13.

Definition set_client (v : option SSHClient) self : Connection_ G :=
  let 'mkConnection a1 a2 a3 a4 a5 a6 a7 a8 a9 _ a11 a12 a13 := self in
  mkConnection a1 a2 a3 a4 a5 a6 a7 a8 a9 v a11 a12 a13.

Definition set_transport (v : option Transport) self : Connection_ G :=
  let 'mkConnection a1 a2 a3 a4 a5 a6 a7 a8 a9 a10 _ a12 a13 := self in
  mkConnection a1 a2 a3 a4 a5 a6 a7 a8 a9 a10 v a12 a13.

Definition set_sftp (v : option SFTPClient) self : Connection_ G :=
  let 'mkConnection a1 a2 a3 a4 a5 a6 a7 a8 a9 a10 a11 _ a13 := self in
  mkConnection a1 a2 a3 a4 a5 a6 a7 a8 a9 a10 a11 v a13.

Definition set_agent_handler (v : option AgentRequestHandler) self
  : Connection_ G :=
  let 'mkConnection a1 a2 a3 a4 a5 a6 a7 a8 a9 a10 a11 a12 _ := self in
  mkConnection a1 a2 a3 a4 a5 a6 a7 a8 a9 a10 a11 a12 v.
End Setters.

(** The object [__init__] receives: every attribute is the class default. *)
Definition class_defaults : Connection :=
  mkConnection None None None None None None GwNone None None None None
               None None.

(** ** The world outside the module *)

(** A [fabric.tunnels.Tunnel] as the forwarding code builds it. *)
Record Tunnel : Type := mkTunnel {
  tunnel_id : nat;
  tunnel_channel : Channel;
  tunnel_sock : nat
}.

(** Calls that leave the module, in the order they are made. *)
Inductive Event : Type :=
| EvConnect (kwargs : gmap string KwVal) (transport : nat)
| EvConnectFailed (kwargs : gmap string KwVal) (e : exn)
| EvProxyCommand (command : string)
| EvOpenChannel (ch : Channel)
| EvOpenChannelFailed (transport : nat) (dest : option string * Z) (e : exn)
| EvChannelClose (ch : Channel)
| EvClientClose
| EvAgentHandlerClose (h : AgentRequestHandler)
| EvOpenSession (transport : nat) (chan : nat)
| EvAgentRequestHandler (chan : nat)
| EvOpenSftp (sftp : nat)
| EvRemoteRun (command : string)
| EvTunnelManager (local_host : string) (local_port : Z)
                  (remote_host : string) (remote_port : Z)
                  (transport : option nat)
| EvManagerStart
| EvManagerFinishedSet
| EvManagerJoin
| EvManagerException (wrapper : option ExceptionWrapper)
| EvRequestPortForward (transport : nat) (address : string) (port : Z)
| EvRequestPortForwardFailed (transport : nat) (address : string) (port : Z)
                             (e : exn)
| EvCancelPortForward (transport : nat) (address : string) (port : Z)
| EvSocket (sock : nat)
| EvSockConnect (sock : nat) (host : string) (port : Z)
| EvSockConnectFailed (sock : nat) (host : string) (port : Z) (e : exn)
| EvTunnelStart (t : Tunnel)
| EvTunnelFinishedSet (t : Tunnel)
| EvTunnelJoin (t : Tunnel).

(** The trace so far and the supply of fresh object identities. *)
Record World : Type := mkWorld {
  trace : list Event;
  fresh : nat
}.

Definition emit (e : Event) (w : World) : World :=
  mkWorld (trace w ++ [e]) (fresh w).

Definition next (w : World) : World :=
  mkWorld (trace w) (S (fresh w)).

(** How the collaborators answer.  [None] means the call returns. *)
Record Env : Type := mkEnv {
  (** [Config()] *)
  default_config : Config;
  (** [SSHConfig().parse(StringIO(text)); lookup(hostname)] *)
  ssh_config_lookup : string -> option string -> Result (gmap string string);
  (** [SSHClient.connect] with the keyword arguments *)
  connect_raises : gmap string KwVal -> option exn;
  (** [Transport.open_channel(kind, dest_addr, src_addr)] *)
  open_channel_raises : nat -> option string * Z -> option exn;
  (** [Transport.request_port_forward(address, port, handler)] *)
  request_port_forward_raises : string -> Z -> option exn;
  (** [socket.connect((host, port))] *)
  sock_connect_raises : string -> Z -> option exn;
  (** [Remote(context=self).run(command)] *)
  remote_run_raises : string -> option exn
}.

(** [try: body finally: fin] over a state [S]: the [finally] block always
    runs, and an exception it raises replaces the outcome of [body]. *)
Definition try_finally {S A : Type}
    (body : S -> S * Result A) (fin : S -> S * Result unit) (s : S)
  : S * Result A :=
  let '(s1, r) := body s in
  let '(s2, rf) := fin s1 in
  match rf with
  | Raise e => (s2, Raise e)
  | Ok _ => (s2, r)
  end.

(** ** [Connection.derive_shorthand] *)

Record Shorthand : Type := mkShorthand {
  sh_user : option string;
  sh_host : option string;
  sh_port : option Z
}.

Definition derive_shorthand (host_string : string) : Result Shorthand :=
  let user_hostport := rsplit1 host_string "@" in
  bind (pop user_hostport) (fun '(hostport, user_hostport) =>
  let user := first_truthy user_hostport in
  bind
    (if (1 <? count hostport ":")%nat
     then Ok (Some hostport, None)
     else
       let host_port := rsplit1 hostport ":" in
       bind (pop0 host_port) (fun '(h, host_port) =>
       let host := if truthy_str h then Some h else None in
       let port := first_truthy host_port in
       Ok (host, port)))
    (fun '(host, port) =>
  bind
    (match port with
     | Some p => bind (int_of_str p) (fun z => Ok (Some z))
     | None => Ok None
     end)
    (fun port => Ok (mkShorthand user host port)))).

(** ** [Connection.__init__] *)

Definition err_both (what : string) : string :=
  "You supplied the " +:+ what +:+
  " via both shorthand and kwarg! Please pick one.".

(** [map_ = {'yes': True, 'no': False}; map_[v]] *)
Definition forwardagent_map (v : string) : Result bool :=
  if String.eqb v "yes" then Ok true
  else if String.eqb v "no" then Ok false
  else Raise (KeyError v).

Section Init.
Context (env : Env).

(** The constructor, as a transformer of the freshly allocated object.
    [fuel] bounds the depth of the nested [Connection(...)] calls made
    for [ProxyJump] directives; running out of it is Python's recursion
    limit. *)
Fixpoint init (fuel : nat) (self : Connection) (host : string)
    (user : option string) (port : option Z) (config : option Config)
    (gateway : Gateway) (forward_agent : option bool)
    (connect_kwargs : option (gmap string KwVal))
  : Connection * Result unit :=
  match fuel with
  | O => (self, Raise RecursionError)
  | S fuel' =>
    let config :=
      match config with None => default_config env | Some c => c end in
    let self := set_config (Some config) self in
    match derive_shorthand host with
    | Raise e => (self, Raise e)
    | Ok shorthand =>
    let host := sh_host shorthand in
    match
      match sh_user shorthand, user with
      | Some _, Some _ => Raise (ValueError (err_both "user"))
      | Some su, None => Ok (Some su)
      | None, _ => Ok user
      end
    with
    | Raise e => (self, Raise e)
    | Ok user =>
    match
      match sh_port shorthand, port with
      | Some _, Some _ => Raise (ValueError (err_both "port"))
      | Some sp, None => Ok (Some sp)
      | None, _ => Ok port
      end
    with
    | Raise e => (self, Raise e)
    | Ok port =>
    let sc := base_ssh_config config host in
    let self := set_ssh_config (Some sc) self in
    let self := set_original_host host self in
    let self := set_host host self in
    let self :=
      match sc !! "hostname" with
      | Some hn => set_host (Some hn) self
      | None => self
      end in
    let self :=
      set_user
        (if truthy_opt_str user then user
         else match sc !! "user" with
              | Some u => Some u
              | None => config_user config
              end)
        self in
    match
      if truthy_opt_Z port then Ok port
      else match sc !! "port" with
           | Some p => bind (int_of_str p) (fun z => Ok (Some z))
           | None => Ok (Some (config_port config))
           end
    with
    | Raise e => (self, Raise e)
    | Ok port =>
    let self := set_port port self in
    match
      match gateway with
      | GwNone =>
          match sc !! "proxyjump" with
          | Some pj =>
              let '(gw, r) :=
                init fuel' class_defaults pj None None None GwNone None None
              in
              bind r (fun _ => Ok (GwJump gw))
          | None =>
              match sc !! "proxycommand" with
              | Some pc => Ok (GwCommand pc)
              | None => Ok (config_gateway config)
              end
          end
      | g => Ok g
      end
    with
    | Raise e => (self, Raise e)
    | Ok gateway =>
    let self := set_gateway gateway self in
    match
      match forward_agent with
      | None =>
          match sc !! "forwardagent" with
          | Some v => bind (forwardagent_map v) (fun b => Ok (Some b))
          | None => Ok (Some (config_forward_agent config))
          end
      | Some b => Ok (Some b)
      end
    with
    | Raise e => (self, Raise e)
    | Ok forward_agent =>
    let self := set_forward_agent forward_agent self in
    let connect_kwargs :=
      match connect_kwargs with
      | None => Some (config_connect_kwargs config)
      | Some k => Some k
      end in
    let self := set_connect_kwargs connect_kwargs self in
    let self := set_client (Some (mkSSHClient AutoAddPolicy)) self in
    let self := set_transport None self in
    (self, Ok tt)
    end end end end end end
  end.

(** [Connection(host, ...)]: allocate, then initialise. *)
Definition new (fuel : nat) (host : string) (user : option string)
    (port : option Z) (config : option Config) (gateway : Gateway)
    (forward_agent : option bool)
    (connect_kwargs : option (gmap string KwVal))
  : Connection * Result unit :=
  init fuel class_defaults host user port config gateway forward_agent
       connect_kwargs.
End Init.

(** ** Opening and closing *)

(** [Connection.is_connected] *)
Definition is_connected (self : Connection) : bool :=
  match transport self with
  | Some t => active t
  | None => false
  end.

(** ["Host {0}\n    ProxyCommand {1}".format(self.host, self.gateway)] *)
Definition dummy_ssh_config (host : option string) (command : string)
  : string :=
  "Host " +:+ str_of_opt host +:+ String (ascii_of_nat 10) "    ProxyCommand "
  +:+ command.

(** [dict(username=self.user, hostname=self.host, port=self.port)] *)
Definition base_kwargs (self : Connection) : gmap string KwVal :=
  <["username" := kw_opt_str (user self)]>
    (<["hostname" := kw_opt_str (host self)]>
       (<["port" := kw_opt_Z (port self)]> ∅)).

Section Session.
Context (env : Env).

(** The last three statements of [open]: merge [connect_kwargs] into the
    keyword arguments, connect the client, keep its transport. *)
Definition finish_open (kwargs : gmap string KwVal) (self : Connection)
    (w : World) : Connection * World * Result unit :=
  match connect_kwargs self with
  | None => (self, w, Raise (TypeError "'NoneType' object is not iterable"))
  | Some extra =>
    (* kwargs.update(self.connect_kwargs): the right operand wins *)
    let kwargs := extra ∪ kwargs in
    match client self with
    | None =>
        (self, w,
         Raise (AttributeError "'NoneType' object has no attribute 'connect'"))
    | Some _ =>
      match connect_raises env kwargs with
      | Some e => (self, emit (EvConnectFailed kwargs e) w, Raise e)
      | None =>
          let t := mkTransport (fresh w) true in
          (set_transport (Some t) self,
           next (emit (EvConnect kwargs (transport_id t)) w), Ok tt)
      end
    end
  end.

(** The body of [open], given the function that resolves the gateway of
    the object it is applied to. *)
Definition open_with
    (open_gateway : Connection -> World -> Connection * World * Result Sock)
    (self : Connection) (w : World) : Connection * World * Result unit :=
  if is_connected self then (self, w, Ok tt)
  else
    let kwargs := base_kwargs self in
    if truthy_gateway (gateway self)
    then
      let '(self, w, r) := open_gateway self w in
      match r with
      | Raise e => (self, w, Raise e)
      | Ok sock => finish_open (<["sock" := KwSock sock]> kwargs) self w
      end
    else finish_open kwargs self w.

(** The channel request that ends [open_gateway], made on the transport
    of the opened gateway [cxn] for a session bound to
    [(for_host, for_port)]. *)
Definition request_channel (for_host : option string)
    (for_port : option Z) (cxn : Connection) (w : World)
  : World * Result Sock :=
  match transport cxn with
  | None =>
      (w, Raise (AttributeError
                   "'NoneType' object has no attribute 'open_channel'"))
  | Some t =>
      match for_port with
      | None =>
          (w, Raise (TypeError "int() argument must be a string or a number"))
      | Some p =>
          let dest := (for_host, p) in
          match open_channel_raises env (transport_id t) dest with
          | Some e =>
              (emit (EvOpenChannelFailed (transport_id t) dest e) w, Raise e)
          | None =>
              let ch :=
                mkChannel (fresh w) (transport_id t) "direct-tcpip" dest
                          ("", 0) in
              (next (emit (EvOpenChannel ch) w), Ok (SockChannel ch))
          end
      end
  end.

(** [open_gateway], by recursion on the gateway it resolves for a
    session bound to [(for_host, for_port)].  A [GwJump] gateway is opened
    first (the nested [open] call), a command gateway needs no
    transport. *)
Fixpoint open_gateway_rec (g : Gateway) (for_host : option string)
    (for_port : option Z) (w : World) : Gateway * World * Result Sock :=
  match g with
  | GwCommand command =>
      match
        ssh_config_lookup env (dummy_ssh_config for_host command) for_host
      with
      | Raise e => (g, w, Raise e)
      | Ok looked_up =>
          match looked_up !! "proxycommand" with
          | None => (g, w, Raise (KeyError "proxycommand"))
          | Some expanded =>
              (g, emit (EvProxyCommand expanded) w,
               Ok (SockProxyCommand expanded))
          end
      end
  | GwJump cxn =>
      let '(cxn, w, r) :=
        open_with
          (fun c w =>
             let '(g', w', r) :=
               open_gateway_rec (gateway c) (host c) (port c) w in
             (set_gateway g' c, w', r))
          cxn w in
      match r with
      | Raise e => (GwJump cxn, w, Raise e)
      | Ok _ =>
          let '(w, r) := request_channel for_host for_port cxn w in
          (GwJump cxn, w, r)
      end
  | GwNone | GwFalse =>
      (g, w, Raise (AttributeError "object has no attribute 'open'"))
  end.

(** [Connection.open_gateway] *)
Definition open_gateway (self : Connection) (w : World)
  : Connection * World * Result Sock :=
  let '(g', w', r) :=
    open_gateway_rec (gateway self) (host self) (port self) w in
  (set_gateway g' self, w', r).

(** [Connection.open] *)
Definition open (self : Connection) (w : World)
  : Connection * World * Result unit :=
  open_with open_gateway self w.

(** [Connection.close].  [SSHClient.close] stops the transport the
    client handed out, which is the object [self.transport] refers to. *)
Definition close (self : Connection) (w : World)
  : Connection * World * Result unit :=
  if is_connected self then
    match client self with
    | None =>
        (self, w,
         Raise (AttributeError "'NoneType' object has no attribute 'close'"))
    | Some _ =>
      let self :=
        set_transport
          (match transport self with
           | Some t => Some (mkTransport (transport_id t) false)
           | None => None
           end) self in
      let w := emit EvClientClose w in
      if truthy_opt_bool (forward_agent self) then
        match _agent_handler self with
        | Some h => (self, emit (EvAgentHandlerClose h) w, Ok tt)
        | None => (self, w, Ok tt)
        end
      else (self, w, Ok tt)
    end
  else (self, w, Ok tt).

(** The [opens] decorator: [self.open()], then the method. *)
Definition opens {A : Type}
    (method : Connection -> World -> Connection * World * Result A)
    (self : Connection) (w : World) : Connection * World * Result A :=
  let '(self, w, r) := open self w in
  match r with
  | Raise e => (self, w, Raise e)
  | Ok _ => method self w
  end.

(** [Connection.create_session] *)
Definition create_session : Connection -> World ->
                            Connection * World * Result nat :=
  opens (fun self w =>
    match transport self with
    | None =>
        (self, w,
         Raise (AttributeError
                  "'NoneType' object has no attribute 'open_session'"))
    | Some t =>
        let chan := fresh w in
        let w := next (emit (EvOpenSession (transport_id t) chan) w) in
        if truthy_opt_bool (forward_agent self) then
          (set_agent_handler (Some (mkAgentRequestHandler chan)) self,
           emit (EvAgentRequestHandler chan) w, Ok chan)
        else (self, w, Ok chan)
    end).

(** [Connection.run]: the command itself is run by [Remote]. *)
Definition run (command : string) : Connection -> World ->
                                    Connection * World * Result unit :=
  opens (fun self w =>
    let w := emit (EvRemoteRun command) w in
    match remote_run_raises env command with
    | Some e => (self, w, Raise e)
    | None => (self, w, Ok tt)
    end).

(** [Connection.sftp] *)
Definition sftp : Connection -> World ->
                  Connection * World * Result SFTPClient :=
  opens (fun self w =>
    match _sftp self with
    | Some s => (self, w, Ok s)
    | None =>
        match client self with
        | None =>
            (self, w,
             Raise (AttributeError
                      "'NoneType' object has no attribute 'open_sftp'"))
        | Some _ =>
            let s := mkSFTPClient (fresh w) in
            (set_sftp (Some s) self, next (emit (EvOpenSftp (fresh w)) w),
             Ok s)
        end
    end).
End Session.

(** ** Port forwarding *)

(** What happens while a [forward_local] scope is entered: how the user's
    block ends, and what [manager.exception()] answers once the manager
    thread has been joined. *)
Record LocalScope : Type := mkLocalScope {
  local_block : Result unit;
  manager_exception : option ExceptionWrapper
}.

(** An inbound connection the transport delivers to the handler:
    [(channel, src_addr_tup, dst_addr_tup)]. *)
Record Inbound : Type := mkInbound {
  in_channel : Channel;
  in_src_addr_tup : string * Z;
  in_dst_addr_tup : string * Z
}.

(** What happens while a [forward_remote] scope is entered: the inbound
    connections the remote end routes to the handler, and how the user's
    block ends. *)
Record RemoteScope : Type := mkRemoteScope {
  inbound : list Inbound;
  remote_block : Result unit
}.

(** [remote_port = remote_port or local_port] and its mirror image. *)
Definition port_or (p : option Z) (default : Z) : Z :=
  match p with
  | Some z => if z =? 0 then default else z
  | None => default
  end.

(** The [finally] block of [forward_local]. *)
Definition forward_local_teardown (scope : LocalScope) (w : World)
  : World * Result unit :=
  let w := emit EvManagerFinishedSet w in
  let w := emit EvManagerJoin w in
  let wrapper := manager_exception scope in
  let w := emit (EvManagerException wrapper) w in
  match wrapper with
  | Some wrapper =>
      if is_ThreadException (type wrapper)
      then (w, Raise (value wrapper))
      else (w, Raise (ThreadException [wrapper]))
  | None => (w, Ok tt)
  end.

(** The loop [for tunnel in tunnels: tunnel.finished.set(); tunnel.join()]. *)
Fixpoint stop_tunnels (tunnels : list Tunnel) (w : World) : World :=
  match tunnels with
  | [] => w
  | tunnel :: rest =>
      stop_tunnels rest
        (emit (EvTunnelJoin tunnel) (emit (EvTunnelFinishedSet tunnel) w))
  end.

Section Forward.
Context (env : Env).

(** [Connection.forward_local], used as [with cxn.forward_local(...)]. *)
Definition forward_local (local_port : Z) (remote_port : option Z)
    (remote_host local_host : string) (scope : LocalScope)
  : Connection -> World -> Connection * World * Result unit :=
  opens env (fun self w =>
    let remote_port := port_or remote_port local_port in
    let w :=
      emit (EvTunnelManager local_host local_port remote_host remote_port
                            (transport_id <$> transport self)) w in
    let w := emit EvManagerStart w in
    let '(w, r) :=
      try_finally (fun w => (w, local_block scope))
                  (forward_local_teardown scope) w in
    (self, w, r)).

(** The handler [forward_remote] registers; [tunnels] is the list it
    shares with the scope. *)
Definition callback (local_host : string) (local_port : Z)
    (channel : Channel) (src_addr_tup dst_addr_tup : string * Z)
    (st : list Tunnel * World) : (list Tunnel * World) * Result unit :=
  let '(tunnels, w) := st in
  let sock := fresh w in
  let w := next (emit (EvSocket sock) w) in
  match sock_connect_raises env local_host local_port with
  | Some e =>
      ((tunnels, emit (EvSockConnectFailed sock local_host local_port e) w),
       Raise e)
  | None =>
      let w := emit (EvSockConnect sock local_host local_port) w in
      let tunnel := mkTunnel (fresh w) channel sock in
      let w := next (emit (EvTunnelStart tunnel) w) in
      (((tunnels ++ [tunnel])%list, w), Ok tt)
  end.

(** The transport calls the handler once per inbound connection, on its
    own thread: what the handler raises does not reach the scope. *)
Fixpoint deliver (local_host : string) (local_port : Z)
    (conns : list Inbound) (st : list Tunnel * World)
  : list Tunnel * World :=
  match conns with
  | [] => st
  | c :: rest =>
      deliver local_host local_port rest
        (fst (callback local_host local_port (in_channel c)
                       (in_src_addr_tup c) (in_dst_addr_tup c) st))
  end.

(** The [try] block of [forward_remote]: the request, then the scope. *)
Definition forward_remote_body (self : Connection) (remote_port : Z)
    (local_port : Z) (remote_host local_host : string)
    (scope : RemoteScope) (st : list Tunnel * World)
  : (list Tunnel * World) * Result unit :=
  let '(tunnels, w) := st in
  match transport self with
  | None =>
      (st,
       Raise
         (AttributeError
            "'NoneType' object has no attribute 'request_port_forward'"))
  | Some t =>
      match request_port_forward_raises env remote_host remote_port with
      | Some e =>
          ((tunnels,
            emit (EvRequestPortForwardFailed (transport_id t) remote_host
                                             remote_port e) w),
           Raise e)
      | None =>
          let w :=
            emit (EvRequestPortForward (transport_id t) remote_host
                                       remote_port) w in
          (deliver local_host local_port (inbound scope) (tunnels, w),
           remote_block scope)
      end
  end.

(** The [finally] block of [forward_remote]. *)
Definition forward_remote_teardown (self : Connection) (remote_port : Z)
    (remote_host : string) (st : list Tunnel * World)
  : (list Tunnel * World) * Result unit :=
  let '(tunnels, w) := st in
  let w := stop_tunnels tunnels w in
  match transport self with
  | None =>
      ((tunnels, w),
       Raise (AttributeError
                "'NoneType' object has no attribute 'cancel_port_forward'"))
  | Some t =>
      ((tunnels,
        emit (EvCancelPortForward (transport_id t) remote_host remote_port)
             w),
       Ok tt)
  end.

(** [Connection.forward_remote], used as [with cxn.forward_remote(...)]. *)
Definition forward_remote (remote_port : Z) (local_port : option Z)
    (remote_host local_host : string) (scope : RemoteScope)
  : Connection -> World -> Connection * World * Result unit :=
  opens env (fun self w =>
    let local_port := port_or local_port remote_port in
    let '((_, w), r) :=
      try_finally
        (forward_remote_body self remote_port local_port remote_host
                             local_host scope)
        (forward_remote_teardown self remote_port remote_host)
        ([], w) in
    (self, w, r)).
End Forward.

(** ** The [paramiko.config.SSHConfig] the gateway code leans on

    [open_gateway] hands a two-line configuration text to paramiko and
    reads the expanded [proxycommand] back.  The library is a collaborator;
    this is its [parse]/[lookup] pair for directives with one value, host
    patterns separated by blanks, and the wildcards [*] and [?]. *)

Module Paramiko.

Definition SSH_PORT : Z := 22.

(** What the library reads from the process: [os.path.expanduser('~')]
    and [os.getenv('USER')]. *)
Record Local : Type := mkLocal {
  homedir : string;
  env_user : option string
}.

(** One [Host] block: its patterns and its settings in file order
    ([None] stores a [ProxyCommand none]). *)
Record HostBlock : Type := mkHostBlock {
  block_host : list string;
  block_config : list (string * option string)
}.

Definition is_word (a : ascii) : bool :=
  let n := nat_of_ascii a in
  ((Nat.leb 48 n && Nat.leb n 57) || (Nat.leb 65 n && Nat.leb n 90)
   || (Nat.leb 97 n && Nat.leb n 122) || Nat.eqb n 95)%bool.

Definition lower_ascii (a : ascii) : ascii :=
  let n := nat_of_ascii a in
  if (Nat.leb 65 n && Nat.leb n 90)%bool then ascii_of_nat (n + 32) else a.

Fixpoint lower (s : string) : string :=
  match s with
  | EmptyString => EmptyString
  | String a rest => String (lower_ascii a) (lower rest)
  end.

(** The longest prefix of word characters, and the rest. *)
Fixpoint span_word (s : string) : string * string :=
  match s with
  | String a rest =>
      if is_word a
      then let '(k, r) := span_word rest in (String a k, r)
      else (EmptyString, s)
  | EmptyString => (EmptyString, EmptyString)
  end.

(** [re.match(r'(\w+)(?:\s*=\s*|\s+)(.+)', line)] on a stripped line. *)
Definition match_setting (line : string) : option (string * string) :=
  let '(key, rest) := span_word line in
  match key with
  | EmptyString => None
  | _ =>
      let after_ws := lstrip rest in
      let by_equals :=
        match after_ws with
        | String "=" v =>
            match lstrip v with
            | EmptyString => None
            | v' => Some (key, v')
            end
        | _ => None
        end in
      match by_equals with
      | Some kv => Some kv
      | None =>
          match rest with
          | String a _ =>
              if is_space a
              then match after_ws with
                   | EmptyString => None
                   | v => Some (key, v)
                   end
              else None
          | EmptyString => None
          end
      end
  end.

(** Split at every occurrence of [c] (the lines of a text, the patterns
    of a [Host] line). *)
Fixpoint split_on (c : ascii) (s : string) : list string :=
  match s with
  | EmptyString => [EmptyString]
  | String a rest =>
      if Ascii.eqb a c then EmptyString :: split_on c rest
      else match split_on c rest with
           | x :: xs => String a x :: xs
           | [] => [String a EmptyString]
           end
  end.

Fixpoint blanks_to_space (s : string) : string :=
  match s with
  | EmptyString => EmptyString
  | String a rest =>
      String (if is_space a then " "%char else a) (blanks_to_space rest)
  end.

Definition get_hosts (v : string) : list string :=
  filter (fun p => truthy_str p = true) (split_on " " (blanks_to_space v)).

Definition is_quote (a : ascii) : bool := Nat.eqb (nat_of_ascii a) 34.

(** [value[1:-1]] when the value starts and ends with a double quote. *)
Definition unquote (v : string) : string :=
  match v with
  | String q rest =>
      match rev (list_ascii_of_string rest) with
      | q' :: body =>
          if (is_quote q && is_quote q')%bool
          then string_of_list_ascii (rev body)
          else v
      | [] => if is_quote q then EmptyString else v
      end
  | EmptyString => v
  end.

Definition has_key (k : string) (cfg : list (string * option string)) : bool :=
  existsb (fun kv => String.eqb (fst kv) k) cfg.

Definition add_setting (k : string) (v : option string)
    (cfg : list (string * option string)) : list (string * option string) :=
  if has_key k cfg then cfg else (cfg ++ [(k, v)])%list.

(** [SSHConfig.parse]: the blocks in file order, the anonymous leading
    block [Host *] first. *)
Fixpoint parse_lines (lines : list string) (cur : HostBlock)
    (done : list HostBlock) : Result (list HostBlock) :=
  match lines with
  | [] => Ok (done ++ [cur])%list
  | line :: rest =>
      let line := strip line in
      match line with
      | EmptyString => parse_lines rest cur done
      | String "#" _ => parse_lines rest cur done
      | _ =>
          match match_setting line with
          | None => Raise (ValueError ("Unparsable line " +:+ line))
          | Some (key, v) =>
              let key := lower key in
              if String.eqb key "host" then
                parse_lines rest (mkHostBlock (get_hosts v) [])
                            (done ++ [cur])%list
              else if (String.eqb key "proxycommand"
                       && String.eqb (lower v) "none")%bool then
                parse_lines rest
                  (mkHostBlock (block_host cur)
                               (add_setting key None (block_config cur)))
                  done
              else
                parse_lines rest
                  (mkHostBlock (block_host cur)
                               (add_setting key (Some (unquote v))
                                            (block_config cur)))
                  done
          end
      end
  end.

Definition parse (text : string) : Result (list HostBlock) :=
  parse_lines (split_on (ascii_of_nat 10) text) (mkHostBlock ["*"] []) [].

(** [fnmatch.fnmatch(name, pat)] for patterns built from literals, [*]
    and [?]. *)
Fixpoint fnmatch_pat (pat : string) : string -> bool :=
  match pat with
  | EmptyString => fun name => negb (truthy_str name)
  | String "*" pat' =>
      fix star (name : string) : bool :=
        (fnmatch_pat pat' name
         || match name with
            | String _ name' => star name'
            | EmptyString => false
            end)%bool
  | String "?" pat' =>
      fun name =>
        match name with
        | String _ name' => fnmatch_pat pat' name'
        | EmptyString => false
        end
  | String c pat' =>
      fun name =>
        match name with
        | String d name' => (Ascii.eqb c d && fnmatch_pat pat' name')%bool
        | EmptyString => false
        end
  end.

Definition fnmatch (name pat : string) : bool := fnmatch_pat pat name.

(** [SSHConfig._allowed] *)
Fixpoint allowed_from (hosts : list string) (hostname : string)
    (matched : bool) : bool :=
  match hosts with
  | [] => matched
  | h :: rest =>
      match h with
      | String "!" neg =>
          if fnmatch hostname neg then false
          else if fnmatch hostname h then allowed_from rest hostname true
          else allowed_from rest hostname matched
      | _ =>
          if fnmatch hostname h then allowed_from rest hostname true
          else allowed_from rest hostname matched
      end
  end.

Definition allowed (hosts : list string) (hostname : string) : bool :=
  allowed_from hosts hostname false.

(** [s.replace(find, repl)] for a non-empty [find]; [skip] counts the
    characters of an occurrence still to be dropped. *)
Fixpoint replace_from (find repl : string) (skip : nat) (s : string)
  : string :=
  match s with
  | EmptyString => EmptyString
  | String a rest =>
      match skip with
      | S k => replace_from find repl k rest
      | O =>
          if String.prefix find s
          then repl +:+ replace_from find repl (String.length find - 1) rest
          else String a (replace_from find repl O rest)
      end
  end.

Definition replace (s find repl : string) : string :=
  replace_from find repl O s.

Fixpoint get (k : string) (cfg : list (string * option string))
  : option (option string) :=
  match cfg with
  | [] => None
  | (k', v) :: rest => if String.eqb k' k then Some v else get k rest
  end.

(** The merge loop of [SSHConfig.lookup]: first occurrence wins. *)
Definition merge (blocks : list HostBlock) (hostname : string)
  : list (string * option string) :=
  fold_left
    (fun ret b =>
       if allowed (block_host b) hostname
       then fold_left (fun ret kv => add_setting (fst kv) (snd kv) ret)
                      (block_config b) ret
       else ret)
    blocks [].

(** [SSHConfig._expand_variables], for the keys [hostname] and
    [proxycommand]. *)
Definition expand_variables (local : Local)
    (cfg : list (string * option string)) (hostname : string)
  : list (string * option string) :=
  let cfg_hostname :=
    match get "hostname" cfg with
    | Some (Some h) => replace h "%h" hostname
    | _ => hostname
    end in
  let port :=
    match get "port" cfg with
    | Some (Some p) => p
    | _ => str_of_Z SSH_PORT
    end in
  let remoteuser :=
    match get "user" cfg with
    | Some (Some u) => u
    | _ => str_of_opt (env_user local)
    end in
  let cfg :=
    if has_key "hostname" cfg
    then map (fun kv => if String.eqb (fst kv) "hostname"
                        then (fst kv, Some cfg_hostname) else kv) cfg
    else (cfg ++ [("hostname", Some cfg_hostname)])%list in
  map (fun kv =>
         match kv with
         | (k, Some v) =>
             if String.eqb k "proxycommand" then
               let v := replace v "~" (homedir local) in
               let v := replace v "%h" cfg_hostname in
               let v := replace v "%p" port in
               let v := replace v "%r" remoteuser in
               (k, Some v)
             else kv
         | _ => kv
         end) cfg.

(** [SSHConfig().parse(StringIO(text))] followed by [lookup(hostname)],
    as a dictionary. *)
Definition lookup (local : Local) (text : string) (hostname : option string)
  : Result (gmap string string) :=
  bind (parse text) (fun blocks =>
  match hostname with
  | None => Raise (TypeError "expected string or buffer")
  | Some hostname =>
      let ret := expand_variables local (merge blocks hostname) hostname in
      Ok (fold_left
            (fun (m : gmap string string) kv =>
               match kv with
               | (k, Some v) => <[k := v]> m
               | (_, None) => m
               end)
            ret ∅)
  end).

End Paramiko.

(** ** Reading traces *)

(** The tunnels started, the forwarding requests made and cancelled, and
    the channels closed, in trace order. *)
Definition started (ev : Event) : list Tunnel :=
  match ev with EvTunnelStart t => [t] | _ => [] end.

Definition cancelled (ev : Event) : list (nat * string * Z) :=
  match ev with
  | EvCancelPortForward t address port => [(t, address, port)]
  | _ => []
  end.

Definition requested (ev : Event) : list (nat * string * Z) :=
  match ev with
  | EvRequestPortForward t address port => [(t, address, port)]
  | EvRequestPortForwardFailed t address port _ => [(t, address, port)]
  | _ => []
  end.

Definition closed_channel (ev : Event) : list Channel :=
  match ev with EvChannelClose ch => [ch] | _ => [] end.

Definition connect_attempt (ev : Event) : list (gmap string KwVal) :=
  match ev with
  | EvConnect kwargs _ => [kwargs]
  | EvConnectFailed kwargs _ => [kwargs]
  | _ => []
  end.

(** [tunnel.finished.set(); tunnel.join()] for each tunnel of a list. *)
Definition stops (tunnels : list Tunnel) : list Event :=
  flat_map (fun t => [EvTunnelFinishedSet t; EvTunnelJoin t]) tunnels.

(** The worker failures a manager's exception slot stands for: none when
    the slot is empty; the wrappers the manager collected from its
    tunnels when it raised a [ThreadException] on their behalf; otherwise
    the one failure of the manager itself. *)
Definition failures (slot : option ExceptionWrapper) : list ExceptionWrapper :=
  match slot with
  | None => []
  | Some wrapper =>
      match value wrapper with
      | ThreadException exceptions => exceptions
      | _ => [wrapper]
      end
  end.

(** ** A concrete environment

    One configuration, one process environment and one network, used to
    run the model on concrete sessions. *)

Definition example_local : Paramiko.Local :=
  Paramiko.mkLocal "/home/deploy" (Some "deploy").

(** The per-host SSH configuration: [web] is reached through a proxy
    command, and [db] through the jump host [bastion]. *)
Definition example_ssh_config (hostname : option string)
  : gmap string string :=
  match hostname with
  | Some h =>
      if String.eqb h "web" then {[ "proxycommand" := "nc %h %p" ]}
      else if String.eqb h "db" then {[ "proxyjump" := "bastion" ]}
      else ∅
  | None => ∅
  end.

Definition example_config : Config :=
  mkConfig example_ssh_config (Some "deploy") 22 GwNone false ∅.

(** Connecting to port 9 is refused, everything else succeeds. *)
Definition example_env : Env :=
  mkEnv example_config
        (Paramiko.lookup example_local)
        (fun _ => None)
        (fun _ _ => None)
        (fun _ _ => None)
        (fun _ port =>
           if port =? 9 then Some (SocketError "Connection refused") else None)
        (fun _ => None).

Definition empty_world : World := mkWorld [] 0.

(** An opened-by-hand session object for [host:port], with a gateway. *)
Definition example_session (hostname : string) (p : Z) (gw : Gateway)
    (extra : gmap string KwVal) : Connection :=
  mkConnection (Some example_config) (Some hostname) (Some hostname)
               (Some "deploy") (Some p) (Some ∅) gw (Some false) (Some extra)
               (Some (mkSSHClient AutoAddPolicy)) None None None.

(** ** What the constructor looks up *)

Section Sought.
Context (env : Env).

(** [config] after [if config is None: config = Config()]. *)
Definition config_or_default (config : option Config) : Config :=
  match config with None => default_config env | Some c => c end.

(** The gateway the constructor finds when none is given: the SSH
    configuration's [proxyjump], then its [proxycommand], then the
    configuration's own gateway. *)
Definition sought_gateway (fuel : nat) (cfg : Config)
    (sc : gmap string string) : Gateway :=
  match sc !! "proxyjump" with
  | Some pj => GwJump (fst (new env fuel pj None None None GwNone None None))
  | None =>
      match sc !! "proxycommand" with
      | Some pc => GwCommand pc
      | None => config_gateway cfg
      end
  end.
End Sought.

(** The events a handler call can add to a trace: sockets and tunnel
    starts. *)
Definition handler_event (ev : Event) : bool :=
  match ev with
  | EvSocket _ | EvSockConnect _ _ _ | EvSockConnectFailed _ _ _ _
  | EvTunnelStart _ => true
  | _ => false
  end.

(** The environment [env] with paramiko's own [SSHConfig] answering. *)
Definition with_paramiko (local : Paramiko.Local) (env : Env) : Env :=
  mkEnv (default_config env) (Paramiko.lookup local) (connect_raises env)
        (open_channel_raises env) (request_port_forward_raises env)
        (sock_connect_raises env) (remote_run_raises env).

(** A manager that failed on its own, with one error. *)
Definition bind_failure : ExceptionWrapper :=
  mkExceptionWrapper (SocketError "Address already in use").

(** A session whose [connect_kwargs] carry a socket of their own, behind
    the jump host [bastion]. *)
Definition overriding_session : Connection :=
  example_session "inner" 2222
                  (GwJump (example_session "bastion" 22 GwNone ∅))
                  {[ "sock" := KwSock (SockOther "mine") ]}.

(** Two connections arriving at a forwarded remote port. *)
Definition example_inbound : list Inbound :=
  [ mkInbound (mkChannel 100 0 "forwarded-tcpip" (None, 0) ("", 0))
              ("192.0.2.1", 40000) ("127.0.0.1", 8080);
    mkInbound (mkChannel 101 0 "forwarded-tcpip" (None, 0) ("", 0))
              ("192.0.2.2", 40001) ("127.0.0.1", 8080) ].

(** The events that resolving a gateway leaves in a trace. *)
Definition gateway_event (ev : Event) : list Event :=
  match ev with
  | EvProxyCommand _ | EvOpenChannel _ | EvOpenChannelFailed _ _ _ => [ev]
  | _ => []
  end.

(** ** Identity, display and scoped use *)

(** [Connection._identity]: the tuple [(host, user, port)]. *)
Definition _identity (self : Connection)
  : option string * option string * option Z :=
  (host self, user self, port self).

(** What [__eq__] can be handed: another connection or anything else. *)
Inductive PyObject : Type :=
| ObjConnection (cxn : Connection)
| ObjOther (repr : string).

(** [Connection.__eq__] *)
Definition __eq__ (self : Connection) (other : PyObject) : bool :=
  match other with
  | ObjConnection other => bool_decide (_identity self = _identity other)
  | ObjOther _ => false
  end.

(** [Connection.__hash__], for the interpreter's [hash] on tuples. *)
Definition __hash__
    (hash : option string * option string * option Z -> Z)
    (self : Connection) : Z :=
  hash (_identity self).





(** [Connection.__enter__] *)
Definition __enter__ (self : Connection) : Connection := self.

(** [Connection.__exit__]: closes, and returns [None]. *)
Definition __exit__ (self : Connection) (w : World)
  : Connection * World * Result unit :=
  close self w.

(** [with cxn: block]: the block works on the object [__enter__] returned;
    [__exit__] then runs however the block ended and, as it returns
    [None], lets an exception of the block through; an exception of
    [__exit__] itself replaces the outcome. *)
Definition with_connection {A : Type}
    (block : Connection -> World -> Connection * World * Result A)
    (self : Connection) (w : World) : Connection * World * Result A :=
  let '(self, w, r) := block (__enter__ self) w in
  let '(self, w, rx) := __exit__ self w in
  match rx with
  | Raise e => (self, w, Raise e)
  | Ok _ => (self, w, r)
  end.

(** The agent handlers closed, and the commands run, in trace order. *)
Definition agent_closed (ev : Event) : list AgentRequestHandler :=
  match ev with EvAgentHandlerClose h => [h] | _ => [] end.

Definition sftp_opened (ev : Event) : list nat :=
  match ev with EvOpenSftp s => [s] | _ => [] end.

Definition commands_run (ev : Event) : list string :=
  match ev with EvRemoteRun c => [c] | _ => [] end.

(** ** [Group] *)

Section GroupOps.
Context (env : Env).

(** The loop behind [self.extend(map(Connection, hosts))]: one
    [Connection(host)] per host string, in order; the first constructor
    that raises ends it. *)
Fixpoint connections_of (fuel : nat) (hosts : list string)
  : Result (list Connection) :=
  match hosts with
  | [] => Ok []
  | h :: rest =>
      let '(cxn, r) := new env fuel h None None None GwNone None None in
      bind r (fun _ =>
      bind (connections_of fuel rest) (fun cxns => Ok (cxn :: cxns)))
  end.

(** [Group.__init__]: a list of connections, empty unless [hosts] is
    given and non-empty. *)
Definition Group_init (fuel : nat) (hosts : option (list string))
  : Result (list Connection) :=
  match hosts with
  | None | Some [] => Ok []
  | Some hosts => connections_of fuel hosts
  end.

(** [Group.from_connections] *)
Definition from_connections (connections : list Connection)
  : list Connection :=
  connections.

(** The loop of [Group.run]: the connections are distinct objects, run one
    after the other; [result[cxn]] files each outcome under the key [cxn],
    which [__hash__] and [__eq__] reduce to its identity.  The group is
    returned with its members as the runs left them. *)
Fixpoint Group_run_loop (command : string) (group : list Connection)
    (result : gmap (option string * option string * option Z) unit)
    (w : World)
  : list Connection * World
    * Result (gmap (option string * option string * option Z) unit) :=
  match group with
  | [] => ([], w, Ok result)
  | cxn :: rest =>
      let '(cxn, w, r) := run env command cxn w in
      match r with
      | Raise e => (cxn :: rest, w, Raise e)
      | Ok v =>
          let '(rest, w, r) :=
            Group_run_loop command rest (<[_identity cxn := v]> result) w in
          (cxn :: rest, w, r)
      end
  end.

(** [Group.run]: the loop, from [result = {}]. *)
Definition Group_run (command : string) (group : list Connection)
    (w : World)
  : list Connection * World
    * Result (gmap (option string * option string * option Z) unit) :=
  Group_run_loop command group ∅ w.
End GroupOps.

(** ** What the methods leave alone *)

(** The attributes the constructor sets and no method writes afterwards. *)
Definition parameters (self : Connection)
  : option Config * option string * option string * option string
    * option Z * option (gmap string string) * option bool
    * option (gmap string KwVal) * option SSHClient :=
  (config self, host self, original_host self, user self, port self,
   ssh_config self, forward_agent self, connect_kwargs self, client self).

(** The channels agent forwarding was requested on, in trace order. *)
Definition agent_requested (ev : Event) : list nat :=
  match ev with EvAgentRequestHandler c => [c] | _ => [] end.

(** ** A second environment, for the edges

    The host [loop] jumps through itself, [odd] has a [ForwardAgent] value
    that is neither [yes] nor [no], [alias] is an alias with a user and a
    port of its own, and the host [down] refuses connections. *)
Definition edge_ssh_config (hostname : option string) : gmap string string :=
  match hostname with
  | Some h =>
      if String.eqb h "loop" then {[ "proxyjump" := "loop" ]}
      else if String.eqb h "odd" then {[ "forwardagent" := "maybe" ]}
      else if String.eqb h "alias"
      then <["hostname" := "real.example.com"]>
             (<["user" := "ops"]> {[ "port" := "2200" ]})
      else ∅
  | None => ∅
  end.

Definition edge_config : Config :=
  mkConfig edge_ssh_config (Some "deploy") 22 GwNone false ∅.

Definition edge_env : Env :=
  mkEnv edge_config
        (Paramiko.lookup example_local)
        (fun kwargs =>
           match kwargs !! "hostname" with
           | Some (KwStr h) =>
               if String.eqb h "down"
               then Some (SSHException "Unable to connect")
               else None
           | _ => None
           end)
        (fun _ _ => None)
        (fun _ _ => None)
        (fun _ _ => None)
        (fun _ => None).

(** * Properties *)

(** ** Results and shorthand *)




Example derive_shorthand_full :
  derive_shorthand "admin@myhost:2222"
  = Ok (mkShorthand (Some "admin") (Some "myhost") (Some 2222)).
Proof. reflexivity. Qed.

Example derive_shorthand_ipv6 :
  derive_shorthand "admin@::1"
  = Ok (mkShorthand (Some "admin") (Some "::1") None).
Proof. reflexivity. Qed.

Example derive_shorthand_empty_parts :
  derive_shorthand "@myhost:" = Ok (mkShorthand None (Some "myhost") None).
Proof. reflexivity. Qed.

(** ** The constructor *)

Section InitFacts.
Context (env : Env).


(** The object a successful constructor call leaves behind. *)
Lemma init_Ok fuel self host_string user_arg port_arg config_arg gateway_arg
    fa ck obj :
  init env (S fuel) self host_string user_arg port_arg config_arg gateway_arg
       fa ck
  = (obj, Ok tt) ->
  exists sh, derive_shorthand host_string = Ok sh /\
    let cfg := config_or_default env config_arg in
    let sc := base_ssh_config cfg (sh_host sh) in
    let user' :=
      match sh_user sh with Some su => Some su | None => user_arg end in
    let port' :=
      match sh_port sh with Some sp => Some sp | None => port_arg end in
    (sh_user sh = None \/ user_arg = None) /\
    (sh_port sh = None \/ port_arg = None) /\
    config obj = Some cfg /\
    ssh_config obj = Some sc /\
    original_host obj = sh_host sh /\
    host obj = match sc !! "hostname" with
               | Some hn => Some hn
               | None => sh_host sh
               end /\
    user obj =
      (if truthy_opt_str user' then user'
       else match sc !! "user" with
            | Some u => Some u
            | None => config_user cfg
            end) /\
    (truthy_opt_Z port' = true -> port obj = port') /\
    gateway obj = match gateway_arg with
                            | GwNone => sought_gateway env fuel cfg sc
                            | g => g
                            end /\
    connect_kwargs obj = Some (match ck with
                               | None => config_connect_kwargs cfg
                               | Some k => k
                               end) /\
    client obj = Some (mkSSHClient AutoAddPolicy) /\
    transport obj = None.
Proof.
  intros H. cbn [init] in H.
  destruct (derive_shorthand host_string) as [sh|e] eqn:Hd; [|by inversion H].
  exists sh. split; [reflexivity|]. cbn zeta.
  fold (config_or_default env config_arg) in H.
  set (cfg := config_or_default env config_arg) in *.
  set (sc := base_ssh_config cfg (sh_host sh)) in *.
  set (user' := match sh_user sh with
                | Some su => Some su
                | None => user_arg
                end).
  set (port' := match sh_port sh with
                | Some sp => Some sp
                | None => port_arg
                end).
  assert (Hu : (sh_user sh = None \/ user_arg = None) /\
               match sh_user sh, user_arg with
               | Some _, Some _ => Raise (ValueError (err_both "user"))
               | Some su, None => Ok (Some su)
               | None, _ => Ok user_arg
               end = Ok user').
  { subst user'. destruct (sh_user sh), user_arg; try (by inversion H); auto. }
  destruct Hu as [Hu1 Hu2]. rewrite Hu2 in H. clear Hu2.
  assert (Hp : (sh_port sh = None \/ port_arg = None) /\
               match sh_port sh, port_arg with
               | Some _, Some _ => Raise (ValueError (err_both "port"))
               | Some sp, None => Ok (Some sp)
               | None, _ => Ok port_arg
               end = Ok port').
  { subst port'. destruct (sh_port sh), port_arg; try (by inversion H); auto. }
  destruct Hp as [Hp1 Hp2]. rewrite Hp2 in H. clear Hp2.
  clearbody user' port'.
  destruct (if truthy_opt_Z port' then Ok port' else _) as [pv|] eqn:Hport in H;
    [|by inversion H].
  destruct (match gateway_arg with GwNone => _ | _ => _ end)
    as [gv|] eqn:Hgw in H;
    [|by inversion H].
  destruct (match fa with None => _ | Some b => _ end) as [fv|] eqn:Hfa in H;
    [|by inversion H].
  assert (Hgv : gv = match gateway_arg with
                     | GwNone => sought_gateway env fuel cfg sc
                     | g => g
                     end).
  { unfold sought_gateway, new.
    destruct gateway_arg; try (by inversion Hgw).
    destruct (sc !! "proxyjump").
    - destruct (init env fuel class_defaults _ _ _ _ _ _ _) as [gw [[]|]];
        simpl in Hgw; by inversion Hgw.
    - destruct (sc !! "proxycommand"); by inversion Hgw. }
  assert (Hpv : truthy_opt_Z port' = true -> pv = port').
  { intros Ht. rewrite Ht in Hport. by inversion Hport. }
  clear Hport Hgw Hfa.
  destruct self. injection H as <-.
  destruct (sc !! "hostname"), ck; cbn; repeat split; auto.
Qed.
(** More fuel never changes what the constructor does once it has had
    enough: only running out of fuel depends on it. *)
Lemma init_fuel_mono fuel :
  forall self host_string user_arg port_arg config_arg gateway_arg fa ck obj r,
    init env fuel self host_string user_arg port_arg config_arg gateway_arg
         fa ck = (obj, r) ->
    r <> Raise RecursionError ->
    init env (S fuel) self host_string user_arg port_arg config_arg
         gateway_arg fa ck = (obj, r).
Proof.
  induction fuel as [|n IH];
    intros self host_string user_arg port_arg config_arg gateway_arg fa ck
           obj r H Hr.
  - injection H as <- <-. congruence.
  - remember (S n) as m eqn:Hm in |- *. cbn [init] in H |- *. subst m.
    destruct (derive_shorthand host_string) as [sh|e]; [|exact H].
    destruct (match sh_user sh, user_arg with
              | Some _, Some _ => _ | Some su, None => _ | None, _ => _ end)
      as [u'|e]; [|exact H].
    destruct (match sh_port sh, port_arg with
              | Some _, Some _ => _ | Some sp, None => _ | None, _ => _ end)
      as [p'|e]; [|exact H].
    destruct (if truthy_opt_Z p' then _ else _) as [pv|e]; [|exact H].
    destruct gateway_arg; try exact H.
    destruct (_ !! "proxyjump") as [pj|]; [|exact H].
    destruct (init env n class_defaults pj None None None GwNone None None)
      as [gw r'] eqn:Hn.
    assert (Hr' : r' <> Raise RecursionError).
    { intros ->. cbn in H. injection H as <- <-. congruence. }
    rewrite (IH _ _ _ _ _ _ _ _ _ _ Hn Hr'). exact H.
Qed.

(** The constructor returns, with any fuel at all, when no value is given
    twice and the SSH configuration is silent on the port, on agent
    forwarding and, unless a gateway is given, on [proxyjump]. *)
Lemma init_returns fuel self host_string user_arg port_arg config_arg
    gateway_arg fa ck sh :
  derive_shorthand host_string = Ok sh ->
  (sh_user sh = None \/ user_arg = None) ->
  (sh_port sh = None \/ port_arg = None) ->
  let sc := base_ssh_config (config_or_default env config_arg) (sh_host sh) in
  sc !! "port" = None ->
  sc !! "forwardagent" = None ->
  (gateway_arg <> GwNone \/ sc !! "proxyjump" = None) ->
  exists obj,
    init env (S fuel) self host_string user_arg port_arg config_arg
         gateway_arg fa ck = (obj, Ok tt).
Proof.
  intros Hd Hu Hp sc Hport Hfa Hgw. cbn [init]. rewrite Hd.
  fold (config_or_default env config_arg). fold sc. rewrite Hport, Hfa.
  assert (exists u', match sh_user sh, user_arg with
                     | Some _, Some _ => Raise (ValueError (err_both "user"))
                     | Some su, None => Ok (Some su)
                     | None, _ => Ok user_arg
                     end = Ok u') as [u' ->].
  { destruct Hu as [-> | ->]; [eauto|]. destruct (sh_user sh); eauto. }
  assert (exists p', match sh_port sh, port_arg with
                     | Some _, Some _ => Raise (ValueError (err_both "port"))
                     | Some sp, None => Ok (Some sp)
                     | None, _ => Ok port_arg
                     end = Ok p') as [p' ->].
  { destruct Hp as [-> | ->]; [eauto|]. destruct (sh_port sh); eauto. }
  destruct (truthy_opt_Z p').
  - destruct Hgw as [Hne | ->].
    + destruct gateway_arg; try congruence; destruct fa; eauto.
    + destruct gateway_arg, (sc !! "proxycommand"), fa; eauto.
  - destruct Hgw as [Hne | ->].
    + destruct gateway_arg; try congruence; destruct fa; eauto.
    + destruct gateway_arg, (sc !! "proxycommand"), fa; eauto.
Qed.
End InitFacts.

(** ** Opening and closing *)

Section SessionFacts.
Context (env : Env).

(** [open_gateway] on a session whose gateway is another session. *)
Lemma open_gateway_jump self g w :
  gateway self = GwJump g ->
  open_gateway env self w =
  let '(g1, w1, r) := open env g w in
  match r with
  | Raise e => (set_gateway (GwJump g1) self, w1, Raise e)
  | Ok _ =>
      let '(w2, r2) := request_channel env (host self) (port self) g1 w1 in
      (set_gateway (GwJump g1) self, w2, r2)
  end.
Proof.
  intros Hg. unfold open_gateway. rewrite Hg. cbn [open_gateway_rec].
  change (open_with env _ g w) with (open env g w).
  destruct (open env g w) as [[g1 w1] [[]|e]]; [|reflexivity].
  destruct (request_channel env (host self) (port self) g1 w1); reflexivity.
Qed.

Lemma open_connected self w :
  is_connected self = true -> open env self w = (self, w, Ok tt).
Proof. intros H. unfold open, open_with. by rewrite H. Qed.

Lemma is_connected_set_transport (self : Connection) t :
  is_connected (set_transport (Some t) self) = active t.
Proof. by destruct self. Qed.

Lemma finish_open_Ok kwargs self w self1 w1 :
  finish_open env kwargs self w = (self1, w1, Ok tt) ->
  is_connected self1 = true.
Proof.
  unfold finish_open.
  destruct (connect_kwargs self); [|by inversion 1].
  destruct (client self); [|by inversion 1].
  destruct (connect_raises env _); [by inversion 1|].
  intros [= <- <-]. apply is_connected_set_transport.
Qed.

(** A call of [open] that returns leaves the session connected. *)
Lemma open_Ok_connected self w self1 w1 :
  open env self w = (self1, w1, Ok tt) -> is_connected self1 = true.
Proof.
  unfold open, open_with.
  destruct (is_connected self) eqn:Hc; [by intros [= <- <-]|].
  destruct (truthy_gateway (gateway self)).
  - destruct (open_gateway env self w) as [[s2 w2] [sock|e]];
      [|by inversion 1].
    apply finish_open_Ok.
  - apply finish_open_Ok.
Qed.

Lemma is_connected_transport (self : Connection) :
  is_connected self = true ->
  exists t, transport self = Some t /\ active t = true.
Proof.
  unfold is_connected. destruct (transport self); [eauto|discriminate].
Qed.

Lemma opens_after_open {A : Type}
    (method : Connection -> World -> Connection * World * Result A)
    self w self1 w1 :
  open env self w = (self1, w1, Ok tt) ->
  opens env method self w = method self1 w1
  /\ opens env method self1 w1 = method self1 w1.
Proof.
  intros H. unfold opens. rewrite H.
  rewrite (open_connected self1 w1 (open_Ok_connected _ _ _ _ H)). done.
Qed.

Lemma opens_open_raises {A : Type}
    (method : Connection -> World -> Connection * World * Result A)
    self w self1 w1 e :
  open env self w = (self1, w1, Raise e) ->
  opens env method self w = (self1, w1, Raise e).
Proof. intros H. unfold opens. by rewrite H. Qed.
End SessionFacts.

Lemma close_not_connected self w :
  is_connected self = false -> close self w = (self, w, Ok tt).
Proof. intros H. unfold close. by rewrite H. Qed.

Lemma close_Ok_not_connected self w self1 w1 :
  close self w = (self1, w1, Ok tt) -> is_connected self1 = false.
Proof.
  unfold close. destruct (is_connected self) eqn:Hc.
  - destruct (client self); [|by inversion 1].
    destruct self as [c h oh u p sc g fa ck cl tr sf ah]; cbn in *.
    destruct tr as [t|]; [|discriminate].
    destruct (truthy_opt_bool fa); [destruct ah|];
      intros [= <- <-]; reflexivity.
  - by intros [= <- <-].
Qed.

(** ** Traces of the forwarding code *)

Lemma stop_tunnels_trace tunnels w :
  trace (stop_tunnels tunnels w) = (trace w ++ stops tunnels)%list.
Proof.
  revert w. induction tunnels as [|t ts IH]; intros w; simpl.
  - by rewrite app_nil_r.
  - rewrite IH. simpl. by rewrite <- !app_assoc.
Qed.

Lemma stops_quiet tunnels :
  flat_map cancelled (stops tunnels) = []
  /\ flat_map started (stops tunnels) = [].
Proof. induction tunnels as [|t ts [IH1 IH2]]; simpl; auto. Qed.

Lemma handler_events_quiet evs :
  forallb handler_event evs = true ->
  flat_map cancelled evs = [] /\ flat_map requested evs = [] /\
  flat_map closed_channel evs = [].
Proof.
  induction evs as [|e evs IH]; simpl; [done|].
  intros [He Hr]%andb_prop. destruct (IH Hr) as (-> & -> & ->).
  destruct e; try discriminate; done.
Qed.

Section ForwardFacts.
Context (env : Env).

(** One handler call extends the trace with handler events and the
    shared list with the tunnels it started. *)
Lemma callback_trace lh lp ch src dst tunnels w tunnels' w' r :
  callback env lh lp ch src dst (tunnels, w) = ((tunnels', w'), r) ->
  exists evs, trace w' = (trace w ++ evs)%list /\
              tunnels' = (tunnels ++ flat_map started evs)%list /\
              forallb handler_event evs = true.
Proof.
  unfold callback.
  destruct (sock_connect_raises env lh lp) as [e|]; intros [= <- <- <-].
  - eexists [_; _]. cbn. rewrite <- app_assoc.
    split; [reflexivity|]. cbn. by rewrite app_nil_r.
  - eexists [_; _; _]. cbn. rewrite <- !app_assoc.
    split; [reflexivity|]. done.
Qed.

Lemma deliver_trace lh lp conns tunnels w tunnels' w' :
  deliver env lh lp conns (tunnels, w) = (tunnels', w') ->
  exists evs, trace w' = (trace w ++ evs)%list /\
              tunnels' = (tunnels ++ flat_map started evs)%list /\
              forallb handler_event evs = true.
Proof.
  revert tunnels w. induction conns as [|c cs IH]; intros tunnels w;
    cbn [deliver].
  - intros [= <- <-]. exists []. by rewrite !app_nil_r.
  - destruct (callback env lh lp (in_channel c) (in_src_addr_tup c)
                       (in_dst_addr_tup c) (tunnels, w))
      as [[t1 w1] r] eqn:Hcb.
    apply callback_trace in Hcb as (e1 & Ht1 & Hs1 & Hh1). cbn [fst].
    intros H. apply IH in H as (e2 & Ht2 & Hs2 & Hh2).
    exists (e1 ++ e2)%list.
    rewrite Ht2, Ht1, Hs2, Hs1, flat_map_app, forallb_app, Hh1, Hh2.
    by rewrite <- !app_assoc.
Qed.
End ForwardFacts.

Lemma base_kwargs_no_sock self : base_kwargs self !! "sock" = None.
Proof. unfold base_kwargs. by rewrite !lookup_insert_ne, lookup_empty. Qed.

(** After [kwargs.update(connect_kwargs)] the [sock] entry is the one of
    [connect_kwargs] when it has one, and the gateway's otherwise. *)
Lemma kwargs_sock (extra kwargs : gmap string KwVal) sock :
  (extra ∪ <["sock" := KwSock sock]> kwargs) !! "sock"
  = match extra !! "sock" with
    | Some v => Some v
    | None => Some (KwSock sock)
    end.
Proof.
  destruct (extra !! "sock") as [v|] eqn:E.
  - by apply lookup_union_Some_l.
  - rewrite lookup_union_r by done. apply lookup_insert_eq.
Qed.

Lemma forward_local_teardown_result scope w :
  snd (forward_local_teardown scope w)
  = match manager_exception scope with
    | None => Ok tt
    | Some wrapper => Raise (ThreadException (failures (Some wrapper)))
    end.
Proof.
  unfold forward_local_teardown.
  destruct (manager_exception scope) as [[e]|]; [|reflexivity].
  destruct e; reflexivity.
Qed.

Lemma forward_local_teardown_trace scope w :
  trace (fst (forward_local_teardown scope w))
  = (trace w ++ [EvManagerFinishedSet; EvManagerJoin;
                 EvManagerException (manager_exception scope)])%list.
Proof.
  unfold forward_local_teardown.
  destruct (manager_exception scope) as [wr|];
    [destruct (is_ThreadException _)|];
    cbn; by rewrite <- !app_assoc.
Qed.

Section ScopeFacts.
Context (env : Env).

(** What [finish_open] adds to a trace: at most one connect attempt, and
    nothing that resolves a gateway. *)
Lemma finish_open_trace kwargs self w :
  exists evs,
    trace (finish_open env kwargs self w).1.2 = (trace w ++ evs)%list
    /\ flat_map gateway_event evs = []
    /\ forall kw, In kw (flat_map connect_attempt evs) ->
                  exists extra, connect_kwargs self = Some extra
                                /\ kw = extra ∪ kwargs.
Proof.
  unfold finish_open.
  destruct (connect_kwargs self) as [extra|];
    [|exists []; cbn; rewrite app_nil_r; by repeat split].
  destruct (client self);
    [|exists []; cbn; rewrite app_nil_r; by repeat split].
  destruct (connect_raises env _) as [e|].
  - exists [EvConnectFailed (extra ∪ kwargs) e]. cbn. repeat split.
    intros kw [<-|[]]. eauto.
  - exists [EvConnect (extra ∪ kwargs) (fresh w)]. cbn. repeat split.
    intros kw [<-|[]]. eauto.
Qed.

(** [forward_local] once the session is open: the manager is built and
    started, the block runs, the teardown decides. *)
Lemma forward_local_after_open local_port remote_port remote_host
    local_host scope self w self1 w1 :
  open env self w = (self1, w1, Ok tt) ->
  let started_w :=
    emit EvManagerStart
      (emit (EvTunnelManager local_host local_port remote_host
                             (port_or remote_port local_port)
                             (transport_id <$> transport self1)) w1) in
  forward_local env local_port remote_port remote_host local_host scope
                self w
  = (self1, fst (forward_local_teardown scope started_w),
     match snd (forward_local_teardown scope started_w) with
     | Raise e => Raise e
     | Ok _ => local_block scope
     end).
Proof.
  intros Hopen. unfold forward_local, opens. rewrite Hopen. cbn zeta.
  unfold try_finally.
  destruct (forward_local_teardown scope _) as [w2 [[]|e]]; reflexivity.
Qed.

(** Whatever the collaborator that expands the command answers, it is
    never told the port of the session. *)
Lemma open_gateway_command_ignores_port self command p w :
  gateway self = GwCommand command ->
  (open_gateway env (set_port p self) w).2 = (open_gateway env self w).2
  /\ trace (open_gateway env (set_port p self) w).1.2
     = trace (open_gateway env self w).1.2.
Proof.
  destruct self as [c h oh u p0 sc g fa ck cl tr sf ah]. cbn. intros ->.
  unfold open_gateway. cbn.
  destruct (ssh_config_lookup env _ h) as [m|e]; [|done].
  destruct (m !! "proxycommand"); done.
Qed.
End ScopeFacts.

(** ** Runs on concrete sessions *)

Example open_through_bastion :
  let res := open example_env
               (example_session "inner" 2222
                  (GwJump (example_session "bastion" 22 GwNone ∅)) ∅)
               empty_world in
  res.2 = Ok tt
  /\ flat_map gateway_event (trace res.1.2)
     = [EvOpenChannel
          (mkChannel 1 0 "direct-tcpip" (Some "inner", 2222) ("", 0))]
  /\ length (flat_map connect_attempt (trace res.1.2)) = 2%nat.
Proof. vm_compute. repeat split. Qed.

Example new_seeks_proxyjump :
  let res :=
    new example_env 2 "admin@db:2200" None None None GwNone None None in
  res.2 = Ok tt /\ user res.1 = Some "admin" /\ port res.1 = Some 2200
  /\ match gateway res.1 with
     | GwJump g => host g = Some "bastion"
     | _ => False
     end.
Proof. vm_compute. repeat split. Qed.

Example new_runs_out_of_fuel :
  (new example_env 1 "db" None None None GwNone None None).2
  = Raise RecursionError.
Proof. vm_compute. reflexivity. Qed.

Example forward_remote_refused_connect :
  let res := forward_remote example_env 9 None "127.0.0.1" "localhost"
               (mkRemoteScope example_inbound (Ok tt))
               (example_session "db" 22 GwNone ∅) empty_world in
  res.2 = Ok tt
  /\ flat_map closed_channel (trace res.1.2) = []
  /\ flat_map started (trace res.1.2) = []
  /\ flat_map cancelled (trace res.1.2) = [(0%nat, "127.0.0.1", 9)].
Proof. vm_compute. repeat split. Qed.

Example close_after_create_session :
  let self :=
    set_forward_agent (Some true) (example_session "db" 22 GwNone ∅) in
  let made := create_session example_env self empty_world in
  let res := close made.1.1 made.1.2 in
  _agent_handler made.1.1 = Some (mkAgentRequestHandler 1)
  /\ res.2 = Ok tt
  /\ flat_map (fun ev => match ev with
                         | EvClientClose | EvAgentHandlerClose _ => [ev]
                         | _ => []
                         end) (trace res.1.2)
     = [EvClientClose; EvAgentHandlerClose (mkAgentRequestHandler 1)].
Proof. vm_compute. repeat split. Qed.

(** * The claims *)

(** ** C1: a failing block inside [forward_local] *)

(** C1, as stated, fails: the block raises [UserException "boom"], the
    manager thread recorded a failure of its own, and what leaves the
    scope is the [ThreadException] raised by the [finally] block, not the
    exception of the block. *)
Lemma forward_local_user_exception_replaced :
  let scope :=
    mkLocalScope (Raise (UserException "boom")) (Some bind_failure) in
  let res := forward_local example_env 5432 None "localhost" "localhost" scope
               (example_session "db" 22 GwNone ∅) empty_world in
  local_block scope = Raise (UserException "boom")
  /\ res.2 = Raise (ThreadException [bind_failure])
  /\ res.2 <> Raise (UserException "boom").
Proof. vm_compute. repeat split. discriminate. Qed.

(** C1, amended: when the block of a [forward_local] scope raises, the
    teardown runs to completion (the shutdown event is set, the manager is
    joined, its exception slot is inspected); the exception of the block
    is then the one propagated only if the slot is empty, and otherwise
    the [ThreadException] of the teardown replaces it. *)
Theorem forward_local_block_raises env local_port remote_port remote_host
    local_host scope self w self1 w1 u :
  open env self w = (self1, w1, Ok tt) ->
  local_block scope = Raise u ->
  let res := forward_local env local_port remote_port remote_host local_host
               scope self w in
  trace res.1.2
  = (trace w1 ++
     [EvTunnelManager local_host local_port remote_host
                      (port_or remote_port local_port)
                      (transport_id <$> transport self1);
      EvManagerStart; EvManagerFinishedSet; EvManagerJoin;
      EvManagerException (manager_exception scope)])%list
  /\ res.2 = match manager_exception scope with
             | None => Raise u
             | Some wrapper =>
                 Raise (ThreadException (failures (Some wrapper)))
             end.
Proof.
  intros Hopen Hblock res. subst res.
  rewrite (forward_local_after_open _ _ _ _ _ _ _ _ _ _ Hopen). cbn [fst snd].
  rewrite forward_local_teardown_trace, forward_local_teardown_result, Hblock.
  split.
  - cbn. by rewrite <- !app_assoc.
  - by destruct (manager_exception scope).
Qed.

Lemma forward_local_block_raises_witness :
  let scope := mkLocalScope (Raise (UserException "boom")) None in
  (forward_local example_env 5432 None "localhost" "localhost" scope
     (example_session "db" 22 GwNone ∅) empty_world).2
  = Raise (UserException "boom").
Proof.
  intros scope.
  refine (proj2 (forward_local_block_raises example_env 5432 None "localhost"
                   "localhost" scope (example_session "db" 22 GwNone ∅)
                   empty_world
                   (set_transport (Some (mkTransport 0 true))
                                  (example_session "db" 22 GwNone ∅))
                   _ (UserException "boom") _ _)).
  - vm_compute. reflexivity.
  - reflexivity.
Defined.

(** ** C2: the handler of [forward_remote] when the local connect fails *)

(** C2 fails on the code: when [sock.connect((local_host, local_port))]
    raises, the handler lets the exception out to the transport thread
    that called it; the inbound channel is not closed, and no tunnel is
    added to the shared list, so the teardown never reaches the channel
    either. *)
Theorem callback_connect_failure_leaks_channel env lh lp ch src dst tunnels w
    e :
  sock_connect_raises env lh lp = Some e ->
  let res := callback env lh lp ch src dst (tunnels, w) in
  res = ((tunnels,
          emit (EvSockConnectFailed (fresh w) lh lp e)
               (next (emit (EvSocket (fresh w)) w))),
         Raise e)
  /\ flat_map closed_channel (trace res.1.2)
     = flat_map closed_channel (trace w).
Proof.
  intros He res. subst res. unfold callback. rewrite He. split; [reflexivity|].
  cbn. rewrite !flat_map_app. cbn. by rewrite !app_nil_r.
Qed.

Lemma callback_connect_failure_leaks_channel_witness :
  let ch := mkChannel 100 0 "forwarded-tcpip" (None, 0) ("", 0) in
  let res := callback example_env "localhost" 9 ch ("192.0.2.1", 40000)
                      ("127.0.0.1", 9) ([], empty_world) in
  res.2 = Raise (SocketError "Connection refused")
  /\ res.1.1 = []
  /\ flat_map closed_channel (trace res.1.2) = [].
Proof.
  intros ch res.
  destruct (callback_connect_failure_leaks_channel example_env "localhost" 9
              ch ("192.0.2.1", 40000) ("127.0.0.1", 9) [] empty_world
              (SocketError "Connection refused") eq_refl) as [Hres Hclosed].
  fold res in Hres, Hclosed. split; [|split].
  - rewrite Hres. reflexivity.
  - rewrite Hres. reflexivity.
  - rewrite Hclosed. reflexivity.
Defined.

(** ** C3: the placeholders of a command gateway *)

(** C3 fails on the code: [open_gateway] builds a configuration text from
    the host and the command only, so with paramiko expanding it the
    placeholder [%p] becomes the default port 22 whatever the port of the
    session is: for host [example.com] and every port [p], 2222 included,
    the command spawned for ["nc %h %p"] is ["nc example.com 22"]. *)
Theorem proxycommand_port_placeholder env local self p w :
  let cxn :=
    set_gateway (GwCommand "nc %h %p")
      (set_port (Some p) (set_host (Some "example.com") self)) in
  open_gateway (with_paramiko local env) cxn w
  = (cxn, emit (EvProxyCommand "nc example.com 22") w,
     Ok (SockProxyCommand "nc example.com 22")).
Proof.
  destruct self as [c h oh u p0 sc g fa ck cl tr sf ah].
  cbn. unfold open_gateway.
  cbn [gateway host port open_gateway_rec with_paramiko ssh_config_lookup].
  assert (H : Paramiko.lookup local
                (dummy_ssh_config (Some "example.com") "nc %h %p")
                (Some "example.com")
              = Ok {[ "proxycommand" := "nc example.com 22";
                      "hostname" := "example.com" ]}).
  { destruct local as [hd eu]. vm_compute. reflexivity. }
  rewrite H.
  change (({[ "proxycommand" := "nc example.com 22";
              "hostname" := "example.com" ]} : gmap string string)
            !! "proxycommand")
    with (Some "nc example.com 22").
  reflexivity.
Qed.

Example proxycommand_port_2222 :
  (open_gateway example_env
     (example_session "example.com" 2222 (GwCommand "nc %h %p") ∅)
     empty_world).2
  = Ok (SockProxyCommand "nc example.com 22").
Proof. vm_compute. reflexivity. Qed.

(** ** C4: what the teardown of [forward_local] raises *)

(** C4, as stated, fails: the manager recorded exactly one failure, its
    own, and the scope raises a [ThreadException] wrapping it, not the
    original error. *)
Lemma forward_local_single_failure_wrapped :
  let scope := mkLocalScope (Ok tt) (Some bind_failure) in
  let res := forward_local example_env 5432 None "localhost" "localhost" scope
               (example_session "db" 22 GwNone ∅) empty_world in
  length (failures (manager_exception scope)) = 1%nat
  /\ res.2 = Raise (ThreadException [bind_failure])
  /\ res.2 <> Raise (value bind_failure).
Proof. vm_compute. repeat split. discriminate. Qed.

(** C4, amended: at the teardown of a [forward_local] scope whose block
    returned, nothing is raised when the manager's exception slot is
    empty; otherwise one [ThreadException] is raised whose causes are the
    recorded failures: the manager's own aggregate as it is when the slot
    holds a [ThreadException], and a new [ThreadException] around the one
    wrapper when it holds any other error.  A single failure is not
    unwrapped. *)
Theorem forward_local_aggregation env local_port remote_port remote_host
    local_host scope self w self1 w1 :
  open env self w = (self1, w1, Ok tt) ->
  local_block scope = Ok tt ->
  let res := forward_local env local_port remote_port remote_host local_host
               scope self w in
  match manager_exception scope with
  | None => res.2 = Ok tt
  | Some wrapper =>
      res.2 = Raise (ThreadException (failures (Some wrapper)))
      /\ (forall exceptions, value wrapper = ThreadException exceptions ->
            res.2 = Raise (value wrapper))
      /\ (is_ThreadException (type wrapper) = false ->
            res.2 = Raise (ThreadException [wrapper]))
  end.
Proof.
  intros Hopen Hblock res. subst res.
  rewrite (forward_local_after_open _ _ _ _ _ _ _ _ _ _ Hopen). cbn [fst snd].
  rewrite forward_local_teardown_result, Hblock.
  destruct (manager_exception scope) as [[e]|]; [|reflexivity].
  split; [reflexivity|]. split.
  - cbn. intros excs ->. reflexivity.
  - destruct e; cbn; try discriminate; reflexivity.
Qed.

Lemma forward_local_aggregation_witness :
  let w1 := mkExceptionWrapper (SocketError "Broken pipe") in
  let w2 := mkExceptionWrapper (SSHException "Channel closed") in
  let scope :=
    mkLocalScope (Ok tt)
                 (Some (mkExceptionWrapper (ThreadException [w1; w2]))) in
  (forward_local example_env 5432 None "localhost" "localhost" scope
     (example_session "db" 22 GwNone ∅) empty_world).2
  = Raise (ThreadException [w1; w2]).
Proof.
  intros w1 w2 scope.
  refine (proj1 (forward_local_aggregation example_env 5432 None "localhost"
                   "localhost" scope (example_session "db" 22 GwNone ∅)
                   empty_world
                   (set_transport (Some (mkTransport 0 true))
                                  (example_session "db" 22 GwNone ∅))
                   _ _ _)).
  - vm_compute. reflexivity.
  - reflexivity.
Defined.

(** ** C5: a gateway that is another session *)

(** C5, as stated, fails: the session sits behind a jump host and its
    [connect_kwargs] carry a [sock] entry; the channel is requested from
    the jump host's transport, but [kwargs.update(connect_kwargs)] runs
    after the gateway is resolved, and the socket handed to the session's
    connect call is the one of [connect_kwargs], not the channel. *)
Lemma proxyjump_sock_overridden :
  let res := open example_env overriding_session empty_world in
  res.2 = Ok tt /\
  exists kw1 ch kw2,
    trace res.1.2 = [EvConnect kw1 0; EvOpenChannel ch; EvConnect kw2 2]
    /\ chan_dest_addr ch = (Some "inner", 2222)
    /\ kw2 !! "sock" = Some (KwSock (SockOther "mine"))
    /\ kw2 !! "sock" <> Some (KwSock (SockChannel ch)).
Proof.
  vm_compute. split; [reflexivity|]. do 3 eexists.
  split; [reflexivity|]. vm_compute. repeat split. discriminate.
Qed.

(** C5, amended: for a session whose gateway is another session,
    [open_gateway] first opens the nested session, which is then
    connected; it then requests exactly one channel of kind
    [direct-tcpip] from the nested session's transport, with destination
    (this session's host, this session's port) and source [('', 0)], and
    returns that channel; [open] passes it on as [sock] to the session's
    own connect call, where it is the socket used unless [connect_kwargs]
    has a [sock] entry of its own. *)
Theorem open_gateway_proxyjump env self g w g1 w1 p :
  gateway self = GwJump g ->
  port self = Some p ->
  open env g w = (g1, w1, Ok tt) ->
  exists t,
    transport g1 = Some t /\ active t = true /\
    (open_channel_raises env (transport_id t) (host self, p) = None ->
     let ch := mkChannel (fresh w1) (transport_id t) "direct-tcpip"
                         (host self, p) ("", 0) in
     let self1 := set_gateway (GwJump g1) self in
     let w2 := next (emit (EvOpenChannel ch) w1) in
     open_gateway env self w = (self1, w2, Ok (SockChannel ch))
     /\ (is_connected self = false ->
         open env self w
         = finish_open env
             (<["sock" := KwSock (SockChannel ch)]> (base_kwargs self))
             self1 w2)
     /\ (forall extra,
           connect_kwargs self = Some extra -> extra !! "sock" = None ->
           (extra ∪ <["sock" := KwSock (SockChannel ch)]> (base_kwargs self))
             !! "sock" = Some (KwSock (SockChannel ch)))).
Proof.
  intros Hg Hp Hopen.
  destruct (is_connected_transport _ (open_Ok_connected env _ _ _ _ Hopen))
    as (t & Ht & Ha).
  exists t. split; [done|]. split; [done|]. intros Hch ch self1 w2.
  assert (Hog : open_gateway env self w = (self1, w2, Ok (SockChannel ch))).
  { rewrite (open_gateway_jump env self g w Hg), Hopen.
    unfold request_channel. rewrite Ht, Hp, Hch. reflexivity. }
  split; [exact Hog|]. split.
  - intros Hc. unfold open, open_with. rewrite Hc, Hg. cbn [truthy_gateway].
    rewrite Hog. reflexivity.
  - intros extra _ Hno. rewrite kwargs_sock, Hno. reflexivity.
Qed.

Lemma open_gateway_proxyjump_witness :
  let bastion := example_session "bastion" 22 GwNone ∅ in
  let self := example_session "inner" 2222 (GwJump bastion) ∅ in
  exists ch,
    (open_gateway example_env self empty_world).2 = Ok (SockChannel ch)
    /\ chan_kind ch = "direct-tcpip"
    /\ chan_dest_addr ch = (Some "inner", 2222)
    /\ chan_src_addr ch = ("", 0).
Proof.
  intros bastion self.
  destruct (open_gateway_proxyjump example_env self bastion empty_world
              (set_transport (Some (mkTransport 0 true)) bastion)
              (next (emit (EvConnect (∅ ∪ base_kwargs bastion) 0)
                          empty_world))
              2222 eq_refl eq_refl)
    as (t & Ht & Ha & H).
  - vm_compute. reflexivity.
  - destruct (H eq_refl) as (Hog & _).
    eexists. rewrite Hog. repeat split.
Defined.

(** ** C6: [open] is idempotent and automatic *)

(** C6: [open] on a connected session changes nothing and calls nothing
    (no second connect); after a call of [open] that returned, the session
    is connected and a second call is that no-op; and [run], [sftp],
    [forward_local] and [forward_remote] each start with [open]: when it
    raises they raise the same and do nothing else, and otherwise they
    behave as on the session it opened. *)
Theorem open_idempotent_and_automatic env :
  (forall self w,
      is_connected self = true -> open env self w = (self, w, Ok tt))
  /\ (forall self w self1 w1,
        open env self w = (self1, w1, Ok tt) ->
        is_connected self1 = true /\ open env self1 w1 = (self1, w1, Ok tt))
  /\ (forall self w self1 w1 r command local_port remote_port port'
             remote_host local_host lscope rscope,
        open env self w = (self1, w1, r) ->
        match r with
        | Raise e =>
            run env command self w = (self1, w1, Raise e)
            /\ sftp env self w = (self1, w1, Raise e)
            /\ forward_local env local_port port' remote_host local_host
                             lscope self w
               = (self1, w1, Raise e)
            /\ forward_remote env remote_port port' remote_host local_host
                              rscope self w
               = (self1, w1, Raise e)
        | Ok _ =>
            run env command self w = run env command self1 w1
            /\ sftp env self w = sftp env self1 w1
            /\ forward_local env local_port port' remote_host local_host
                             lscope self w
               = forward_local env local_port port' remote_host local_host
                               lscope self1 w1
            /\ forward_remote env remote_port port' remote_host local_host
                              rscope self w
               = forward_remote env remote_port port' remote_host local_host
                                rscope self1 w1
        end).
Proof.
  split; [apply open_connected|]. split.
  - intros self w self1 w1 H.
    pose proof (open_Ok_connected env _ _ _ _ H) as Hc.
    split; [exact Hc|]. by apply open_connected.
  - intros self w self1 w1 r command local_port remote_port port' remote_host
           local_host lscope rscope H.
    destruct r as [[]|e].
    + unfold run, sftp, forward_local, forward_remote.
      repeat split;
        match goal with
        | |- opens env ?m self w = _ =>
            destruct (opens_after_open env m _ _ _ _ H) as [-> ->]; reflexivity
        end.
    + unfold run, sftp, forward_local, forward_remote.
      repeat split; by apply opens_open_raises.
Qed.

Lemma open_idempotent_and_automatic_witness :
  let res :=
    open example_env (example_session "db" 22 GwNone ∅) empty_world in
  is_connected res.1.1 = true
  /\ open example_env res.1.1 res.1.2 = (res.1.1, res.1.2, Ok tt).
Proof.
  intros res.
  apply (proj1 (proj2 (open_idempotent_and_automatic example_env))
           (example_session "db" 22 GwNone ∅) empty_world).
  vm_compute. reflexivity.
Defined.

(** ** C7: the teardown of [forward_remote] *)

(** C7: once the session is open, what a [forward_remote] scope adds to
    the trace ends with the stop request and the join of every tunnel the
    handler started during the scope, in the order they were started,
    followed by one call of [cancel_port_forward]; that call is the only
    one, it comes after all the stops, and it carries the address and the
    port of the forwarding request. *)
Theorem forward_remote_stops_then_cancels env remote_port local_port
    remote_host local_host scope self w self1 w1 :
  open env self w = (self1, w1, Ok tt) ->
  exists t pre,
    transport self1 = Some t /\
    trace (forward_remote env remote_port local_port remote_host local_host
                          scope self w).1.2
    = (trace w1 ++ pre ++ stops (flat_map started pre)
       ++ [EvCancelPortForward (transport_id t) remote_host remote_port])%list
    /\ flat_map cancelled
         (pre ++ stops (flat_map started pre)
          ++ [EvCancelPortForward (transport_id t) remote_host
                                  remote_port])%list
       = [(transport_id t, remote_host, remote_port)]
    /\ (forall r, In r (flat_map requested pre) ->
                  r = (transport_id t, remote_host, remote_port)).
Proof.
  intros Hopen.
  destruct (is_connected_transport _ (open_Ok_connected env _ _ _ _ Hopen))
    as (t & Ht & _).
  exists t. unfold forward_remote, opens. rewrite Hopen.
  cbn zeta. unfold try_finally, forward_remote_body, forward_remote_teardown.
  rewrite Ht.
  destruct (request_port_forward_raises env remote_host remote_port) as [e|].
  - exists [EvRequestPortForwardFailed (transport_id t) remote_host
                                       remote_port e].
    cbn. rewrite <- !app_assoc. split; [done|]. split; [reflexivity|].
    split; [reflexivity|]. intros r [<-|[]]. reflexivity.
  - destruct (deliver env local_host (port_or local_port remote_port)
                      (inbound scope) _) as [tunnels w2] eqn:Hd.
    apply deliver_trace in Hd as (evs & Htr & Htu & Hh).
    destruct (handler_events_quiet _ Hh) as (Hc & Hr & _).
    exists (EvRequestPortForward (transport_id t) remote_host remote_port
              :: evs).
    cbn. rewrite stop_tunnels_trace, Htr. cbn in Htu. subst tunnels.
    cbn. rewrite <- !app_assoc. split; [done|]. split; [reflexivity|].
    rewrite !flat_map_app, Hc, Hr, (proj1 (stops_quiet _)). cbn.
    split; [reflexivity|]. intros r [<-|[]]. reflexivity.
Qed.

Lemma forward_remote_stops_then_cancels_witness :
  let self := example_session "db" 22 GwNone ∅ in
  let res := forward_remote example_env 8080 None "127.0.0.1" "localhost"
               (mkRemoteScope example_inbound (Ok tt)) self empty_world in
  exists pre,
    trace res.1.2
    = (trace (open example_env self empty_world).1.2 ++ pre
       ++ stops (flat_map started pre)
       ++ [EvCancelPortForward 0 "127.0.0.1" 8080])%list
    /\ length (flat_map started pre) = 2%nat.
Proof.
  intros self res.
  destruct (forward_remote_stops_then_cancels example_env 8080 None
              "127.0.0.1" "localhost" (mkRemoteScope example_inbound (Ok tt))
              self empty_world
              (set_transport (Some (mkTransport 0 true)) self)
              (next (emit (EvConnect (∅ ∪ base_kwargs self) 0)
                          empty_world)))
    as (t & pre & Ht & Htr & _ & _).
  - vm_compute. reflexivity.
  - injection Ht as <-. exists pre. split; [exact Htr|].
    fold res in Htr. apply (f_equal (flat_map started)) in Htr.
    rewrite !flat_map_app, (proj2 (stops_quiet _)) in Htr.
    apply (f_equal length) in Htr.
    rewrite !length_app in Htr.
    replace (length (flat_map started (trace res.1.2))) with 2%nat in Htr
      by (vm_compute; reflexivity).
    cbn in Htr. lia.
Defined.

(** ** C8: the four ways to give a gateway *)

(** C8: for an object the constructor built, (1) when no gateway was given
    the attribute is what the configuration holds, the SSH configuration's
    [proxyjump] first (as a new connection), then its [proxycommand], then
    the configuration's own gateway; (2) any other value, the explicit
    [False], a command string or a session, is stored as it is;
    (3) when the stored value is falsy, [open] resolves no gateway: it
    makes its connect call with the session's own arguments and
    [connect_kwargs] only, and no gateway event enters the trace;
    (4) when it is truthy, [open] resolves it with [open_gateway] and
    hands the result to the connect call as [sock]. *)
Theorem gateway_four_way env fuel self host_string user_arg port_arg
    config_arg gateway_arg fa ck obj :
  init env (S fuel) self host_string user_arg port_arg config_arg gateway_arg
       fa ck = (obj, Ok tt) ->
  let cfg := config_or_default env config_arg in
  (gateway_arg = GwNone ->
   exists sc, ssh_config obj = Some sc /\
     (forall pj, sc !! "proxyjump" = Some pj ->
        gateway obj
        = GwJump (new env fuel pj None None None GwNone None None).1) /\
     (sc !! "proxyjump" = None ->
      forall pc, sc !! "proxycommand" = Some pc ->
                 gateway obj = GwCommand pc) /\
     (sc !! "proxyjump" = None -> sc !! "proxycommand" = None ->
      gateway obj = config_gateway cfg))
  /\ (gateway_arg <> GwNone -> gateway obj = gateway_arg)
  /\ (forall w, truthy_gateway (gateway obj) = false ->
        open env obj w = finish_open env (base_kwargs obj) obj w
        /\ base_kwargs obj !! "sock" = None
        /\ exists evs,
             trace (open env obj w).1.2 = (trace w ++ evs)%list
             /\ flat_map gateway_event evs = []
             /\ forall kw, In kw (flat_map connect_attempt evs) ->
                  exists extra, connect_kwargs obj = Some extra
                                /\ kw = extra ∪ base_kwargs obj)
  /\ (forall w, truthy_gateway (gateway obj) = true ->
        open env obj w
        = let '(obj1, w1, r) := open_gateway env obj w in
          match r with
          | Raise e => (obj1, w1, Raise e)
          | Ok sock =>
              finish_open env (<["sock" := KwSock sock]> (base_kwargs obj))
                          obj1 w1
          end).
Proof.
  intros H cfg.
  destruct (init_Ok env _ _ _ _ _ _ _ _ _ _ H)
    as (sh & Hd & _ & _ & _ & Hsc & _ & _ & _ & _ & Hgw & _ & _ & Htr).
  fold cfg in Hsc, Hgw.
  assert (Hnc : is_connected obj = false)
    by (unfold is_connected; by rewrite Htr).
  split; [|split; [|split]].
  - intros ->. eexists. split; [exact Hsc|]. rewrite Hgw.
    unfold sought_gateway. repeat split.
    + by intros pj ->.
    + by intros -> pc ->.
    + by intros -> ->.
  - intros Hne. rewrite Hgw. by destruct gateway_arg.
  - intros w Hf.
    assert (Ho : open env obj w = finish_open env (base_kwargs obj) obj w).
    { unfold open, open_with. by rewrite Hnc, Hf. }
    split; [exact Ho|]. split; [apply base_kwargs_no_sock|].
    rewrite Ho. apply finish_open_trace.
  - intros w Ht. unfold open, open_with. rewrite Hnc, Ht.
    destruct (open_gateway env obj w) as [[obj1 w1] [sock|e]]; reflexivity.
Qed.

Lemma gateway_four_way_witness :
  let obj := (new example_env 1 "web" None None None GwFalse None None).1 in
  ssh_config obj = Some {[ "proxycommand" := "nc %h %p" ]}
  /\ gateway obj = GwFalse
  /\ open example_env obj empty_world
     = finish_open example_env (base_kwargs obj) obj empty_world.
Proof.
  intros obj.
  destruct (gateway_four_way example_env 0 class_defaults "web" None None None
              GwFalse None None obj) as (_ & Hset & Hfalsy & _).
  - vm_compute. reflexivity.
  - assert (Hg : gateway obj = GwFalse) by (apply Hset; discriminate).
    split; [vm_compute; reflexivity|]. split; [exact Hg|].
    apply Hfalsy. rewrite Hg. reflexivity.
Defined.

(** ** C9: [close] *)

(** C9: [close] on a session that is not connected returns with the
    session and the world unchanged; a call of [close] that returned
    leaves the session not connected, so a second call is that no-op; and
    on a connected session it closes the client and then the
    agent-forwarding handler, the latter only when agent forwarding is
    enabled and a handler exists. *)
Theorem close_idempotent :
  (forall self w,
      is_connected self = false -> close self w = (self, w, Ok tt))
  /\ (forall self w self1 w1,
        close self w = (self1, w1, Ok tt) ->
        close self1 w1 = (self1, w1, Ok tt))
  /\ (forall self w c,
        is_connected self = true -> client self = Some c ->
        exists self1 w1,
          close self w = (self1, w1, Ok tt) /\ is_connected self1 = false /\
          trace w1
          = (trace w ++ EvClientClose ::
               match _agent_handler self with
               | Some h =>
                   if truthy_opt_bool (forward_agent self)
                   then [EvAgentHandlerClose h] else []
               | None => []
               end)%list).
Proof.
  split; [apply close_not_connected|]. split.
  - intros self w self1 w1 H. apply close_not_connected.
    eapply close_Ok_not_connected, H.
  - intros self w c Hc Hcl.
    destruct (close self w) as [[self1 w1] r] eqn:H.
    exists self1, w1.
    assert (r = Ok tt /\ trace w1 = (trace w ++ EvClientClose ::
               match _agent_handler self with
               | Some h =>
                   if truthy_opt_bool (forward_agent self)
                   then [EvAgentHandlerClose h] else []
               | None => []
               end)%list) as [-> Htr].
    { unfold close in H. rewrite Hc, Hcl in H.
      destruct self as [c0 h oh u p sc g fa ck cl tr sf ah]; cbn in *.
      destruct tr as [t|]; [|discriminate].
      destruct (truthy_opt_bool fa); [destruct ah|]; injection H as <- <- <-;
        (split; [reflexivity|]); cbn; rewrite <- ?app_assoc; try reflexivity.
      all: destruct ah; reflexivity. }
    split; [reflexivity|]. split; [|exact Htr].
    eapply close_Ok_not_connected, H.
Qed.

Lemma close_idempotent_witness :
  let opened :=
    set_agent_handler (Some (mkAgentRequestHandler 7))
      (set_forward_agent (Some true)
         (set_transport (Some (mkTransport 0 true))
            (example_session "db" 22 GwNone ∅))) in
  let res := close opened empty_world in
  res.2 = Ok tt
  /\ trace res.1.2
     = [EvClientClose; EvAgentHandlerClose (mkAgentRequestHandler 7)]
  /\ close res.1.1 res.1.2 = (res.1.1, res.1.2, Ok tt).
Proof.
  intros opened res.
  split; [vm_compute; reflexivity|]. split; [vm_compute; reflexivity|].
  apply (proj1 (proj2 close_idempotent) opened empty_world).
  vm_compute. reflexivity.
Defined.

(** ** C10: shorthand and keyword arguments *)




(** * Further properties *)

(** ** Strings *)

Lemma split_last_absent s c : count s c = 0%nat -> split_last s c = None.
Proof.
  induction s as [|a s IH]; simpl; [done|].
  destruct (Ascii.eqb a c); [discriminate|]. intros H. by rewrite IH.
Qed.

Lemma split_last_app pre post c :
  count post c = 0%nat ->
  split_last (pre +:+ String c post) c = Some (pre, post).
Proof.
  intros H. induction pre as [|a pre IH]; simpl.
  - rewrite (split_last_absent _ _ H), Ascii.eqb_refl. reflexivity.
  - by rewrite IH.
Qed.

Lemma count_app s t c : count (s +:+ t) c = (count s c + count t c)%nat.
Proof.
  induction s as [|a s IH]; simpl; [done|].
  destruct (Ascii.eqb a c); simpl; by rewrite IH.
Qed.

Lemma split_last_Some s c pre post :
  split_last s c = Some (pre, post) ->
  s = pre +:+ String c post /\ count post c = 0%nat.
Proof.
  revert pre. induction s as [|a s IH]; intros pre; simpl; [discriminate|].
  destruct (split_last s c) as [[p q]|] eqn:E.
  - intros [= <- <-]. destruct (IH p eq_refl) as [-> Hc]. done.
  - destruct (Ascii.eqb a c) eqn:Ea; [|discriminate].
    intros [= <- <-]. apply Ascii.eqb_eq in Ea as ->. split; [done|].
    clear IH. induction s as [|b s IH]; simpl in *; [done|].
    destruct (split_last s c) as [[p q]|]; [discriminate|].
    destruct (Ascii.eqb b c); [discriminate|]. by apply IH.
Qed.

Lemma truthy_str_nonempty s : s <> "" -> truthy_str s = true.
Proof. by destruct s. Qed.

Lemma append_assoc (a b c : string) : (a +:+ b) +:+ c = a +:+ (b +:+ c).
Proof.
  induction a as [|x a IH]; [reflexivity|].
  change (String x ((a +:+ b) +:+ c) = String x (a +:+ (b +:+ c))).
  by rewrite IH.
Qed.

Lemma int_of_str_raises s e :
  int_of_str s = Raise e -> exists msg, e = ValueError msg.
Proof.
  unfold int_of_str. generalize (strip s) as t. intros t He.
  repeat match type of He with
         | context [match ?x with _ => _ end] => destruct x
         end;
    inversion He; eauto.
Qed.

(** ** [derive_shorthand] *)

(** X1: a host string [user@host:port] splits into its three parts: the
    user is everything before the last [@] (so it may itself contain
    [@]), the host is what lies between that [@] and the only [:] after
    it, and the port is the integer the rest reads as. *)
Theorem derive_shorthand_user_host_port u h ps p :
  u <> "" -> h <> "" -> ps <> "" ->
  count h "@" = 0%nat -> count ps "@" = 0%nat ->
  count h ":" = 0%nat -> count ps ":" = 0%nat ->
  int_of_str ps = Ok p ->
  derive_shorthand (u +:+ "@" +:+ h +:+ ":" +:+ ps)
  = Ok (mkShorthand (Some u) (Some h) (Some p)).
Proof.
  intros Hu Hh Hps Hha Hpa Hhc Hpc Hint. unfold derive_shorthand, rsplit1.
  change (u +:+ "@" +:+ h +:+ ":" +:+ ps)
    with (u +:+ String "@" (h +:+ String ":" ps)).
  rewrite split_last_app
    by (rewrite count_app; simpl; rewrite Hha, Hpa; reflexivity).
  cbn [pop rev app bind first_truthy]. rewrite (truthy_str_nonempty u Hu).
  assert (Hc : count (h +:+ String ":" ps) ":" = 1%nat).
  { rewrite count_app. simpl. rewrite Hhc, Hpc. reflexivity. }
  rewrite Hc. cbn [Nat.ltb Nat.leb].
  rewrite (split_last_app h ps ":" Hpc).
  cbn [pop0 bind first_truthy].
  rewrite (truthy_str_nonempty h Hh), (truthy_str_nonempty ps Hps).
  cbn [bind]. rewrite Hint. reflexivity.
Qed.

Lemma derive_shorthand_user_host_port_witness :
  derive_shorthand "ci@corp@build.example.com:2222"
  = Ok (mkShorthand (Some "ci@corp") (Some "build.example.com") (Some 2222)).
Proof.
  apply (derive_shorthand_user_host_port "ci@corp" "build.example.com" "2222"
           2222);
    try discriminate; reflexivity.
Defined.

(** X2: a host part with more than one [:] (an IPv6 address) is never
    split: the whole of it is the host and no port is derived, with or
    without a user in front. *)
Theorem derive_shorthand_many_colons hostport :
  count hostport "@" = 0%nat -> (1 < count hostport ":")%nat ->
  derive_shorthand hostport = Ok (mkShorthand None (Some hostport) None)
  /\ forall u, u <> "" ->
       derive_shorthand (u +:+ "@" +:+ hostport)
       = Ok (mkShorthand (Some u) (Some hostport) None).
Proof.
  intros Ha Hc. apply Nat.ltb_lt in Hc. split.
  - unfold derive_shorthand, rsplit1. rewrite (split_last_absent _ _ Ha).
    cbn [pop rev app bind first_truthy]. rewrite Hc. reflexivity.
  - intros u Hu. unfold derive_shorthand, rsplit1.
    change (u +:+ "@" +:+ hostport) with (u +:+ String "@" hostport).
    rewrite (split_last_app u hostport "@" Ha).
    cbn [pop rev app bind first_truthy].
    rewrite (truthy_str_nonempty u Hu), Hc. reflexivity.
Qed.

Lemma derive_shorthand_many_colons_witness :
  derive_shorthand "admin@2001:db8::1:22"
  = Ok (mkShorthand (Some "admin") (Some "2001:db8::1:22") None).
Proof.
  apply (proj2 (derive_shorthand_many_colons "2001:db8::1:22" eq_refl
                  ltac:(vm_compute; lia)) "admin").
  discriminate.
Defined.

(** X3: [derive_shorthand] raises in one case only: the host string ends
    in [:text] where [text] is not empty, holds no further [:] and is not
    an integer literal; what it raises is then the [ValueError] of
    [int(text)].  In particular the two [pop] calls never fail. *)
Theorem derive_shorthand_raises s e :
  derive_shorthand s = Raise e ->
  exists before port_text msg,
    s = before +:+ ":" +:+ port_text
    /\ count port_text ":" = 0%nat
    /\ port_text <> ""
    /\ int_of_str port_text = Raise e
    /\ e = ValueError msg.
Proof.
  unfold derive_shorthand, rsplit1.
  assert (Hcore : forall user hostport,
     bind (if (1 <? count hostport ":")%nat
           then Ok (Some hostport, None)
           else bind (pop0 (match split_last hostport ":" with
                            | Some (pre, post) => [pre; post]
                            | None => [hostport]
                            end))
                  (fun '(h, host_port) =>
                     Ok (if truthy_str h then Some h else None,
                         first_truthy host_port)))
       (fun '(host, port) =>
          bind match port with
               | Some p => bind (int_of_str p) (fun z => Ok (Some z))
               | None => Ok None
               end
            (fun port => Ok (mkShorthand user host port))) = Raise e ->
     exists before port_text msg,
       hostport = before +:+ ":" +:+ port_text
       /\ count port_text ":" = 0%nat /\ port_text <> ""
       /\ int_of_str port_text = Raise e /\ e = ValueError msg).
  { intros user hostport.
    destruct (1 <? count hostport ":")%nat; [discriminate|].
    destruct (split_last hostport ":") as [[pre post]|] eqn:Hs; cbn;
      [|discriminate].
    destruct (truthy_str post) eqn:Hpost;
      [|destruct (truthy_str pre); discriminate].
    destruct (int_of_str post) as [z|e'] eqn:Hint;
      [destruct (truthy_str pre); discriminate|].
    intros He.
    assert (e' = e) as ->
        by (destruct (truthy_str pre); cbn in He; congruence).
    destruct (split_last_Some _ _ _ _ Hs) as [-> Hc].
    destruct (int_of_str_raises _ _ Hint) as [msg ->].
    exists pre, post, msg. repeat split; auto. by destruct post. }
  destruct (split_last s "@") as [[u hp]|] eqn:Hs; cbn [pop rev app bind].
  - intros H.
    apply Hcore in H as (before & pt & msg & -> & Hc & Hne & Hint & ->).
    destruct (split_last_Some _ _ _ _ Hs) as [-> _].
    exists (u +:+ "@" +:+ before), pt, msg. repeat split; auto.
    by rewrite !append_assoc.
  - intros H.
    apply Hcore in H as (before & pt & msg & -> & Hc & Hne & Hint & ->).
    exists before, pt, msg. repeat split; auto.
Qed.

Lemma derive_shorthand_raises_witness :
  exists before port_text,
    "admin@myhost:ssh" = before +:+ ":" +:+ port_text
    /\ int_of_str port_text
       = Raise (ValueError "invalid literal for int() with base 10: ssh").
Proof.
  destruct (derive_shorthand_raises "admin@myhost:ssh"
              (ValueError "invalid literal for int() with base 10: ssh")
              eq_refl)
    as (before & pt & msg & Hs & _ & _ & Hint & _).
  exists before, pt. split; [exact Hs | exact Hint].
Defined.

(** ** The constructor, beyond the gateway *)

Section InitMore.
Context (env : Env).

(** What the constructor settles for the port when none is given (or the
    given one is 0), and for agent forwarding. *)
Lemma init_fallbacks fuel self host_string user_arg port_arg config_arg
    gateway_arg fa ck obj sh :
  init env (S fuel) self host_string user_arg port_arg config_arg gateway_arg
       fa ck = (obj, Ok tt) ->
  derive_shorthand host_string = Ok sh ->
  let cfg := config_or_default env config_arg in
  let sc := base_ssh_config cfg (sh_host sh) in
  let port' :=
    match sh_port sh with Some sp => Some sp | None => port_arg end in
  (truthy_opt_Z port' = false ->
   match sc !! "port" with
   | Some s => exists z, int_of_str s = Ok z /\ port obj = Some z
   | None => port obj = Some (config_port cfg)
   end)
  /\ match fa with
     | Some b => forward_agent obj = Some b
     | None =>
         match sc !! "forwardagent" with
         | Some v => (v = "yes" /\ forward_agent obj = Some true)
                     \/ (v = "no" /\ forward_agent obj = Some false)
         | None => forward_agent obj = Some (config_forward_agent cfg)
         end
     end.
Proof.
  intros H Hd. cbn [init] in H. rewrite Hd in H. cbn zeta.
  fold (config_or_default env config_arg) in H.
  set (cfg := config_or_default env config_arg) in *.
  set (sc := base_ssh_config cfg (sh_host sh)) in *.
  set (port' := match sh_port sh with
                | Some sp => Some sp
                | None => port_arg
                end).
  destruct (match sh_user sh, user_arg with
            | Some _, Some _ => _ | Some su, None => _ | None, _ => _ end)
    as [u'|] in H; [|by inversion H].
  assert (Hp : match sh_port sh, port_arg with
               | Some _, Some _ => Raise (ValueError (err_both "port"))
               | Some sp, None => Ok (Some sp)
               | None, _ => Ok port_arg
               end = Ok port').
  { subst port'. destruct (sh_port sh), port_arg; try (by inversion H); auto. }
  rewrite Hp in H. clear Hp. clearbody port'.
  destruct (if truthy_opt_Z port' then Ok port' else _)
    as [pv|] eqn:Hport in H; [|by inversion H].
  destruct (match gateway_arg with GwNone => _ | _ => _ end)
    as [gv|] in H; [|by inversion H].
  destruct (match fa with None => _ | Some b => _ end) as [fv|] eqn:Hfa in H;
    [|by inversion H].
  destruct self as [c0 h0 oh0 u0 p0 sc0 g0 fa0 ck0 cl0 tr0 sf0 ah0].
  injection H as <-.
  destruct (sc !! "hostname"); cbn.
  all: split;
    [ intros Ht; rewrite Ht in Hport; destruct (sc !! "port") as [ps|];
      [ destruct (int_of_str ps) as [z|]; [|discriminate];
        injection Hport as <-; eauto
      | by injection Hport as <- ]
    | destruct fa as [b|]; [by injection Hfa as <-|];
      destruct (sc !! "forwardagent") as [v|]; [|by injection Hfa as <-];
      unfold forwardagent_map in Hfa;
      destruct (String.eqb v "yes") eqn:Ey;
        [apply String.eqb_eq in Ey; injection Hfa as <-; auto|];
      destruct (String.eqb v "no") eqn:En; [|discriminate];
      apply String.eqb_eq in En; injection Hfa as <-; auto ].
Qed.

(** X4: for a host that is an alias in the SSH configuration, the
    constructor keeps the name it was given as [original_host], looks the
    SSH configuration up under that name, and takes the configured
    [Hostname] as [host]; without a [Hostname] the two are the same.  A
    user and a port that neither the shorthand nor the arguments give come
    from the SSH configuration before the configuration's defaults. *)
Theorem init_alias fuel self host_string config_arg gateway_arg fa ck obj sh :
  init env (S fuel) self host_string None None config_arg gateway_arg fa ck
  = (obj, Ok tt) ->
  derive_shorthand host_string = Ok sh ->
  let cfg := config_or_default env config_arg in
  let sc := base_ssh_config cfg (sh_host sh) in
  original_host obj = sh_host sh
  /\ ssh_config obj = Some sc
  /\ host obj = match sc !! "hostname" with
                | Some hn => Some hn
                | None => sh_host sh
                end
  /\ (sh_user sh = None ->
      user obj = match sc !! "user" with
                 | Some u => Some u
                 | None => config_user cfg
                 end)
  /\ (sh_port sh = None ->
      match sc !! "port" with
      | Some s => exists z, int_of_str s = Ok z /\ port obj = Some z
      | None => port obj = Some (config_port cfg)
      end).
Proof.
  intros H Hd cfg sc.
  destruct (init_Ok env _ _ _ _ _ _ _ _ _ _ H)
    as (sh' & Hd' & _ & _ & _ & Hsc & Hoh & Hh & Hu & _).
  rewrite Hd in Hd'. injection Hd' as <-.
  destruct (init_fallbacks _ _ _ _ _ _ _ _ _ _ _ H Hd) as [Hp _].
  fold cfg in Hsc, Hh, Hu, Hp. fold sc in Hsc, Hh, Hu, Hp.
  split; [exact Hoh|]. split; [exact Hsc|]. split; [exact Hh|]. split.
  - intros Hn. rewrite Hn in Hu. exact Hu.
  - intros Hn. rewrite Hn in Hp. by apply Hp.
Qed.

(** X5: with no [forward_agent] argument, an SSH configuration whose
    [ForwardAgent] value is neither [yes] nor [no] makes the constructor
    fail: whatever else is given, it never returns. *)
Theorem init_forwardagent_invalid fuel self host_string user_arg port_arg
    config_arg gateway_arg ck sh v obj r :
  derive_shorthand host_string = Ok sh ->
  base_ssh_config (config_or_default env config_arg) (sh_host sh)
    !! "forwardagent" = Some v ->
  v <> "yes" -> v <> "no" ->
  init env (S fuel) self host_string user_arg port_arg config_arg gateway_arg
       None ck = (obj, r) ->
  r <> Ok tt.
Proof.
  intros Hd Hv Hy Hn H ->.
  destruct (init_fallbacks _ _ _ _ _ _ _ _ _ _ _ H Hd) as [_ Hfa].
  cbn zeta in Hfa. rewrite Hv in Hfa.
  destruct Hfa as [[? _]|[? _]]; congruence.
Qed.

(** X6: a jump host whose own SSH configuration names itself as its
    [ProxyJump] (and sets no [Port]) makes the constructor recurse
    without end: with the default configuration, [Connection(pj)]
    exhausts every recursion budget. *)
Theorem proxyjump_to_itself_never_ends pj sh :
  derive_shorthand pj = Ok sh ->
  let sc := base_ssh_config (default_config env) (sh_host sh) in
  sc !! "proxyjump" = Some pj ->
  sc !! "port" = None ->
  forall fuel,
    (new env fuel pj None None None GwNone None None).2 = Raise RecursionError.
Proof.
  intros Hd sc Hpj Hport fuel. unfold new.
  induction fuel as [|n IH]; [reflexivity|].
  remember (S n) as m eqn:Hm. rewrite Hm at 1. cbn [init].
  rewrite Hd. fold sc. rewrite Hpj, Hport.
  destruct (sh_user sh), (sh_port sh) as [sp|]; cbn.
  all: try destruct (negb (sp =? 0)); cbn.
  all: destruct (init env n class_defaults pj None None None GwNone None None)
         as [gw r]; cbn in IH; subst r; reflexivity.
Qed.

End InitMore.

Lemma init_alias_witness :
  let obj := (new edge_env 1 "alias" None None None GwFalse None None).1 in
  original_host obj = Some "alias"
  /\ host obj = Some "real.example.com"
  /\ user obj = Some "ops"
  /\ port obj = Some 2200.
Proof.
  intros obj.
  destruct (init_alias edge_env 0 class_defaults "alias" None GwFalse None
              None obj (mkShorthand None (Some "alias") None))
    as (Hoh & _ & Hh & Hu & Hp).
  - vm_compute. reflexivity.
  - reflexivity.
  - split; [exact Hoh|]. split; [exact Hh|]. split; [exact (Hu eq_refl)|].
    destruct (Hp eq_refl) as (z & Hz & Hport).
    rewrite Hport. vm_compute in Hz. congruence.
Defined.

Lemma init_forwardagent_invalid_witness :
  (new edge_env 1 "odd" None None None GwFalse None None).2 <> Ok tt.
Proof.
  apply (init_forwardagent_invalid edge_env 0 class_defaults "odd" None None
           None GwFalse None (mkShorthand None (Some "odd") None) "maybe"
           (new edge_env 1 "odd" None None None GwFalse None None).1).
  - reflexivity.
  - vm_compute. reflexivity.
  - discriminate.
  - discriminate.
  - apply surjective_pairing.
Defined.

Lemma proxyjump_to_itself_never_ends_witness :
  (new edge_env 50 "loop" None None None GwNone None None).2
  = Raise RecursionError.
Proof.
  apply (proxyjump_to_itself_never_ends edge_env "loop"
           (mkShorthand None (Some "loop") None)).
  - reflexivity.
  - vm_compute. reflexivity.
  - vm_compute. reflexivity.
Defined.


(** ** Identity *)

Lemma parameters_set_transport t (self : Connection) :
  parameters (set_transport t self) = parameters self.
Proof. by destruct self. Qed.

Lemma parameters_set_gateway g (self : Connection) :
  parameters (set_gateway g self) = parameters self.
Proof. by destruct self. Qed.

Lemma parameters_set_sftp s (self : Connection) :
  parameters (set_sftp s self) = parameters self.
Proof. by destruct self. Qed.

Lemma parameters_set_agent_handler h (self : Connection) :
  parameters (set_agent_handler h self) = parameters self.
Proof. by destruct self. Qed.

Lemma parameters_identity (a b : Connection) :
  parameters a = parameters b -> _identity a = _identity b.
Proof. unfold parameters, _identity. by intros [= _ -> _ -> -> _ _ _ _]. Qed.

Lemma transport_set_gateway g (self : Connection) :
  transport (set_gateway g self) = transport self.
Proof. by destruct self. Qed.

Lemma transport_set_sftp s (self : Connection) :
  transport (set_sftp s self) = transport self.
Proof. by destruct self. Qed.

Lemma sftp_set_sftp s (self : Connection) : _sftp (set_sftp s self) = s.
Proof. by destruct self. Qed.

(** X8: [__eq__] compares the identity [(host, user, port)] and nothing
    else: it is reflexive, symmetric and transitive on connections, equal
    connections hash alike, a connection equals itself whatever its
    gateway and its transport are, and it equals nothing that is not a
    connection. *)
Theorem eq_by_identity (a b c : Connection) hash g t repr :
  __eq__ a (ObjConnection a) = true
  /\ (__eq__ a (ObjConnection b) = __eq__ b (ObjConnection a))
  /\ (__eq__ a (ObjConnection b) = true ->
      __eq__ b (ObjConnection c) = true ->
      __eq__ a (ObjConnection c) = true)
  /\ (__eq__ a (ObjConnection b) = true -> __hash__ hash a = __hash__ hash b)
  /\ __eq__ (set_gateway g (set_transport t a)) (ObjConnection a) = true
  /\ __eq__ a (ObjOther repr) = false.
Proof.
  unfold __eq__, __hash__. repeat split.
  - by apply bool_decide_eq_true.
  - apply bool_decide_ext. split; congruence.
  - rewrite !bool_decide_eq_true. congruence.
  - rewrite bool_decide_eq_true. by intros ->.
  - apply bool_decide_eq_true. by destruct a.
Qed.

Lemma eq_by_identity_witness :
  let a := example_session "db" 22 GwNone ∅ in
  let b := example_session "db" 22 (GwCommand "nc %h %p")
             {[ "sock" := KwSock (SockOther "mine") ]} in
  __eq__ a (ObjConnection b) = true
  /\ __hash__ (fun _ => 7) a = __hash__ (fun _ => 7) b.
Proof.
  intros a b.
  destruct (eq_by_identity a b a (fun _ => 7) GwNone None "x")
    as (_ & _ & _ & Hh & _).
  assert (H : __eq__ a (ObjConnection b) = true) by (vm_compute; reflexivity).
  split; [exact H | exact (Hh H)].
Defined.

Section SessionMore.
Context (env : Env).

Lemma finish_open_parameters kwargs self w :
  parameters (finish_open env kwargs self w).1.1 = parameters self.
Proof.
  unfold finish_open. destruct (connect_kwargs self); [|done].
  destruct (client self); [|done].
  destruct (connect_raises env _); [done|]. apply parameters_set_transport.
Qed.

Lemma open_gateway_parameters self w :
  parameters (open_gateway env self w).1.1 = parameters self.
Proof.
  unfold open_gateway.
  destruct (open_gateway_rec env _ _ _ w) as [[g' w'] r].
  apply parameters_set_gateway.
Qed.

Lemma open_parameters self w :
  parameters (open env self w).1.1 = parameters self.
Proof.
  unfold open, open_with. destruct (is_connected self); [done|].
  destruct (truthy_gateway (gateway self)).
  - pose proof (open_gateway_parameters self w) as H.
    destruct (open_gateway env self w) as [[s1 w1] [sock|e]]; [|exact H].
    cbn in H. rewrite <- H. apply finish_open_parameters.
  - apply finish_open_parameters.
Qed.

Lemma opens_parameters {A : Type}
    (method : Connection -> World -> Connection * World * Result A) self w :
  (forall s v, parameters (method s v).1.1 = parameters s) ->
  parameters (opens env method self w).1.1 = parameters self.
Proof.
  intros Hm. unfold opens. pose proof (open_parameters self w) as H.
  destruct (open env self w) as [[s1 w1] [[]|e]]; [|exact H].
  cbn in H. rewrite <- H. apply Hm.
Qed.

Lemma close_parameters self w :
  parameters (close self w).1.1 = parameters self.
Proof.
  unfold close. destruct (is_connected self); [|done].
  destruct (client self) eqn:Hc; [|done].
  destruct self as [c h oh u p sc g fa ck cl tr sf ah]. cbn.
  destruct (truthy_opt_bool fa); [destruct ah|]; reflexivity.
Qed.

(** X9: no method changes what the constructor set: after [open],
    [close], [create_session], [run], [sftp], [forward_local] or
    [forward_remote], however they end, the configuration, host, original
    host, user, port, SSH configuration, agent-forwarding flag, connect
    arguments and client of the session are what they were; so the
    session still equals its former self and stays the same dictionary
    key. *)
Theorem methods_keep_parameters self w command lp rp p' rh lh lscope rscope :
  let after :=
    [ (open env self w).1.1; (close self w).1.1;
      (create_session env self w).1.1; (run env command self w).1.1;
      (sftp env self w).1.1;
      (forward_local env lp p' rh lh lscope self w).1.1;
      (forward_remote env rp p' rh lh rscope self w).1.1 ] in
  Forall (fun s => parameters s = parameters self
                   /\ __eq__ s (ObjConnection self) = true) after.
Proof.
  assert (H : forall s, parameters s = parameters self ->
                        parameters s = parameters self
                        /\ __eq__ s (ObjConnection self) = true).
  { intros s Hs. split; [exact Hs|]. apply bool_decide_eq_true.
    by apply parameters_identity. }
  intros after. subst after.
  repeat apply Forall_cons_2; [..|apply Forall_nil_2]; apply H.
  - apply open_parameters.
  - apply close_parameters.
  - apply opens_parameters. intros s v.
    destruct (transport s); [|done]. destruct (truthy_opt_bool _); [|done].
    apply parameters_set_agent_handler.
  - apply opens_parameters. intros s v.
    destruct (remote_run_raises env command); done.
  - apply opens_parameters. intros s v.
    destruct (_sftp s); [done|]. destruct (client s); [|done].
    apply parameters_set_sftp.
  - apply opens_parameters. intros s v. cbn zeta.
    destruct (try_finally _ _ _). done.
  - apply opens_parameters. intros s v. cbn zeta.
    destruct (try_finally _ _ _) as [[? ?] ?]. done.
Qed.

(** X10: a call of [open] that raises leaves [self.transport] as it was:
    the session is still not connected, whether the failure came from the
    gateway or from the connect call. *)
Theorem open_raises_keeps_transport self w self1 w1 e :
  open env self w = (self1, w1, Raise e) ->
  transport self1 = transport self /\ is_connected self1 = false.
Proof.
  unfold open, open_with.
  destruct (is_connected self) eqn:Hc; [discriminate|].
  assert (Hfin : forall kw s v,
             finish_open env kw s v = (self1, w1, Raise e) -> self1 = s).
  { intros kw s v. unfold finish_open.
    destruct (connect_kwargs s); [|by intros [= <- _]].
    destruct (client s); [|by intros [= <- _]].
    destruct (connect_raises env _); [by intros [= <- _]|discriminate]. }
  assert (Hog : transport (open_gateway env self w).1.1 = transport self).
  { unfold open_gateway.
    destruct (open_gateway_rec env _ _ _ w) as [[g' w'] r].
    apply transport_set_gateway. }
  intros H.
  assert (Ht : transport self1 = transport self).
  { destruct (truthy_gateway (gateway self)).
    - destruct (open_gateway env self w) as [[s2 w2] [sock|e2]]; cbn in Hog.
      + apply Hfin in H as ->. exact Hog.
      + injection H as <- _ _. exact Hog.
    - apply Hfin in H as ->. reflexivity. }
  split; [exact Ht|]. unfold is_connected in *. by rewrite Ht.
Qed.

(** X11: [sftp] memoises: a call that returned has stored the client; the
    next call returns the same client and calls nothing; and on a session
    without a client yet, the one [open_sftp] call is all that [sftp] adds
    to what [open] does. *)
Theorem sftp_memoized self w self1 w1 c :
  sftp env self w = (self1, w1, Ok c) ->
  _sftp self1 = Some c
  /\ sftp env self1 w1 = (self1, w1, Ok c)
  /\ (_sftp self = None ->
      trace w1
      = (trace (open env self w).1.2 ++ [EvOpenSftp (sftp_id c)])%list).
Proof.
  unfold sftp, opens.
  destruct (open env self w) as [[s0 w0] [[]|e]] eqn:Hopen; [|discriminate].
  pose proof (open_Ok_connected env _ _ _ _ Hopen) as Hc.
  intros H.
  assert (Hs : _sftp self1 = Some c /\ is_connected self1 = true).
  { destruct (_sftp s0) eqn:Hs0.
    - injection H as <- <- <-. done.
    - destruct (client s0); [|discriminate]. injection H as <- <- <-.
      split; [apply sftp_set_sftp|].
      unfold is_connected in *. by rewrite transport_set_sftp. }
  destruct Hs as [Hs Hc1]. split; [exact Hs|]. split.
  - rewrite (open_connected env self1 w1 Hc1), Hs. reflexivity.
  - intros Hnone.
    assert (Hs0 : _sftp s0 = None).
    { clear H. revert Hopen. unfold open, open_with.
      destruct (is_connected self); [by intros [= <- _]|].
      assert (Hfin : forall kw s v s' v' r,
                 finish_open env kw s v = (s', v', r) -> _sftp s' = _sftp s).
      { intros kw s v s' v' r. unfold finish_open.
        destruct (connect_kwargs s); [|by intros [= <- _ _]].
        destruct (client s); [|by intros [= <- _ _]].
        destruct (connect_raises env _); [by intros [= <- _ _]|].
        intros [= <- _ _]. by destruct s. }
      destruct (truthy_gateway (gateway self)).
      - unfold open_gateway.
        destruct (open_gateway_rec env _ _ _ w) as [[g' w'] [sock|e]];
          [|discriminate].
        intros Hf. apply Hfin in Hf. rewrite Hf. by destruct self.
      - intros Hf. apply Hfin in Hf. congruence. }
    rewrite Hs0 in H. destruct (client s0); [|discriminate].
    injection H as <- <- <-. reflexivity.
Qed.

(** X12: with agent forwarding on, each [create_session] opens a new
    channel and replaces the stored handler by one for that channel; a
    later [close] closes the last handler only: after two sessions the
    handler made for the first channel is not among those [close]
    closes. *)
Theorem create_session_twice_leaks_handler self w t c :
  transport self = Some t -> active t = true ->
  forward_agent self = Some true -> client self = Some c ->
  let first := create_session env self w in
  let second := create_session env first.1.1 first.1.2 in
  let closed := close second.1.1 second.1.2 in
  first.2 = Ok (fresh w) /\ second.2 = Ok (S (fresh w)) /\ closed.2 = Ok tt
  /\ flat_map agent_requested (trace closed.1.2)
     = (flat_map agent_requested (trace w) ++ [fresh w; S (fresh w)])%list
  /\ flat_map agent_closed (trace closed.1.2)
     = (flat_map agent_closed (trace w)
        ++ [mkAgentRequestHandler (S (fresh w))])%list.
Proof.
  destruct self as [cf h oh u p sc g fa ck cl tr sf ah]. cbn.
  intros -> Ha -> ->.
  unfold create_session, opens, open, open_with, is_connected. cbn.
  rewrite Ha. cbn. rewrite Ha. cbn.
  unfold close, is_connected. cbn. rewrite Ha. cbn.
  rewrite !flat_map_app. cbn. rewrite !app_nil_r, <- !app_assoc. done.
Qed.

(** X13: used as a context manager, a connection is closed when the block
    ends, however it ends: the outcome of the block, value or exception,
    is the outcome of the whole statement, and the session is not
    connected afterwards (given that a connected session has its
    client). *)
Theorem with_connection_closes {A : Type}
    (block : Connection -> World -> Connection * World * Result A) self w :
  let inner := block self w in
  (is_connected inner.1.1 = true -> is_Some (client inner.1.1)) ->
  let res := with_connection block self w in
  res.2 = inner.2 /\ is_connected res.1.1 = false
  /\ res.1 = (close inner.1.1 inner.1.2).1.
Proof.
  intros inner Hcl res. subst res inner.
  unfold with_connection, __enter__, __exit__.
  destruct (block self w) as [[s1 w1] r]. cbn in *.
  destruct (close s1 w1) as [[s2 w2] rx] eqn:Hclose.
  assert (rx = Ok tt) as ->.
  { unfold close in Hclose. destruct (is_connected s1).
    - destruct (Hcl eq_refl) as [c Hc]. rewrite Hc in Hclose.
      destruct (truthy_opt_bool _); [destruct (_agent_handler _)|];
        by injection Hclose as _ _ <-.
    - by injection Hclose as _ _ <-. }
  cbn. split; [reflexivity|]. split; [|reflexivity].
  eapply close_Ok_not_connected, Hclose.
Qed.

(** X14: [connect_kwargs] reach the connect call verbatim: on a session
    without gateway, every entry of [connect_kwargs] is in the keyword
    arguments of the one connect call [open] makes, also when its key is
    [username], [hostname] or [port]; those three come from the session
    only where [connect_kwargs] is silent, and nothing else is passed. *)
Theorem open_passes_connect_kwargs self w extra c :
  is_connected self = false -> truthy_gateway (gateway self) = false ->
  connect_kwargs self = Some extra -> client self = Some c ->
  exists kw,
    flat_map connect_attempt (trace (open env self w).1.2)
    = (flat_map connect_attempt (trace w) ++ [kw])%list
    /\ (forall k v, extra !! k = Some v -> kw !! k = Some v)
    /\ (extra !! "username" = None ->
        kw !! "username" = Some (kw_opt_str (user self)))
    /\ (extra !! "hostname" = None ->
        kw !! "hostname" = Some (kw_opt_str (host self)))
    /\ (extra !! "port" = None -> kw !! "port" = Some (kw_opt_Z (port self)))
    /\ (forall k, extra !! k = None -> k <> "username" -> k <> "hostname" ->
                  k <> "port" -> kw !! k = None).
Proof.
  intros Hc Hg Hck Hcl. exists (extra ∪ base_kwargs self).
  unfold open, open_with, finish_open. rewrite Hc, Hg, Hck, Hcl.
  split.
  { destruct (connect_raises env _); cbn; rewrite flat_map_app; cbn; done. }
  split; [intros k v Hk; by apply lookup_union_Some_l|].
  unfold base_kwargs.
  repeat split.
  - intros Hn. rewrite lookup_union_r by done. by rewrite lookup_insert_eq.
  - intros Hn. rewrite lookup_union_r by done.
    rewrite lookup_insert_ne by done. by rewrite lookup_insert_eq.
  - intros Hn. rewrite lookup_union_r by done.
    rewrite !lookup_insert_ne by done. by rewrite lookup_insert_eq.
  - intros k Hn H1 H2 H3. rewrite lookup_union_r by done.
    by rewrite !lookup_insert_ne, lookup_empty.
Qed.

(** X15: a closed session can be opened again: [close] followed by [open]
    on a connected session without gateway makes a new connect call with
    the same arguments and stores the new transport. *)
Theorem reopen_after_close self w c extra :
  is_connected self = true -> client self = Some c ->
  connect_kwargs self = Some extra -> truthy_gateway (gateway self) = false ->
  connect_raises env (extra ∪ base_kwargs self) = None ->
  let closed := close self w in
  let again := open env closed.1.1 closed.1.2 in
  closed.2 = Ok tt /\ again.2 = Ok tt
  /\ transport again.1.1 = Some (mkTransport (fresh w) true)
  /\ flat_map connect_attempt (trace again.1.2)
     = (flat_map connect_attempt (trace w)
        ++ [extra ∪ base_kwargs self])%list.
Proof.
  destruct self as [cf h oh u p sc g fa ck cl tr sf ah]. cbn.
  unfold is_connected. cbn. destruct tr as [[tid act]|]; [|discriminate]. cbn.
  intros -> -> -> Hg Hcr. unfold close, is_connected. cbn.
  unfold open, open_with, is_connected, finish_open, base_kwargs in *.
  cbn in Hcr.
  destruct (truthy_opt_bool fa); [destruct ah|]; cbn; rewrite Hg; cbn;
    rewrite Hcr; cbn; rewrite !flat_map_app; cbn; rewrite ?app_nil_r; done.
Qed.
End SessionMore.

Lemma open_raises_keeps_transport_witness :
  let self := example_session "down" 22 GwNone ∅ in
  let res := open edge_env self empty_world in
  res.2 = Raise (SSHException "Unable to connect")
  /\ transport res.1.1 = None /\ is_connected res.1.1 = false.
Proof.
  intros self res.
  assert (H : res = (res.1.1, res.1.2,
                     Raise (SSHException "Unable to connect")))
    by (vm_compute; reflexivity).
  destruct (open_raises_keeps_transport edge_env self empty_world _ _ _ H)
    as [Ht Hc].
  split; [by rewrite H|]. split; [exact Ht | exact Hc].
Defined.

Lemma sftp_memoized_witness :
  let first := sftp example_env (example_session "db" 22 GwNone ∅)
                    empty_world in
  let second := sftp example_env first.1.1 first.1.2 in
  first.2 = Ok (mkSFTPClient 1) /\ second = first
  /\ flat_map sftp_opened (trace second.1.2) = [1%nat].
Proof.
  intros first second.
  assert (H : first = (first.1.1, first.1.2, Ok (mkSFTPClient 1)))
    by (vm_compute; reflexivity).
  destruct (sftp_memoized example_env _ _ _ _ _ H) as (_ & Hagain & _).
  subst second. rewrite Hagain, <- H.
  split; [by rewrite H|]. split; [reflexivity|]. vm_compute. reflexivity.
Defined.

Lemma create_session_twice_leaks_handler_witness :
  let self :=
    set_forward_agent (Some true)
      (set_transport (Some (mkTransport 0 true))
         (example_session "db" 22 GwNone ∅)) in
  let first := create_session example_env self (mkWorld [] 1) in
  let second := create_session example_env first.1.1 first.1.2 in
  let closed := close second.1.1 second.1.2 in
  flat_map agent_requested (trace closed.1.2) = [1%nat; 2%nat]
  /\ flat_map agent_closed (trace closed.1.2) = [mkAgentRequestHandler 2].
Proof.
  intros self first second closed.
  destruct (create_session_twice_leaks_handler example_env self (mkWorld [] 1)
              (mkTransport 0 true) (mkSSHClient AutoAddPolicy)
              eq_refl eq_refl eq_refl eq_refl)
    as (_ & _ & _ & Hreq & Hclosed).
  split; [exact Hreq | exact Hclosed].
Defined.

Lemma with_connection_closes_witness :
  let res :=
    with_connection (run example_env "uname")
                    (example_session "db" 22 GwNone ∅) empty_world in
  res.2 = Ok tt /\ is_connected res.1.1 = false
  /\ flat_map commands_run (trace res.1.2) = ["uname"].
Proof.
  intros res.
  destruct (with_connection_closes (run example_env "uname")
              (example_session "db" 22 GwNone ∅) empty_world)
    as (Hr & Hc & _).
  - intros _. vm_compute. eauto.
  - fold res in Hr, Hc. split; [rewrite Hr; vm_compute; reflexivity|].
    split; [exact Hc|]. vm_compute. reflexivity.
Defined.

Lemma open_passes_connect_kwargs_witness :
  let self :=
    example_session "db" 22 GwNone
      (<["hostname" := KwStr "db.internal"]> {[ "timeout" := KwInt 5 ]}) in
  exists kw,
    flat_map connect_attempt (trace (open example_env self empty_world).1.2)
    = [kw]
    /\ kw !! "hostname" = Some (KwStr "db.internal")
    /\ kw !! "timeout" = Some (KwInt 5)
    /\ kw !! "username" = Some (KwStr "deploy")
    /\ kw !! "port" = Some (KwInt 22).
Proof.
  intros self.
  destruct (open_passes_connect_kwargs example_env self empty_world
              (<["hostname" := KwStr "db.internal"]>
                 {[ "timeout" := KwInt 5 ]})
              (mkSSHClient AutoAddPolicy) eq_refl eq_refl eq_refl eq_refl)
    as (kw & Htr & Hextra & Hu & _ & Hp & _).
  exists kw. split; [exact Htr|]. split; [|split; [|split]].
  - apply Hextra. vm_compute. reflexivity.
  - apply Hextra. vm_compute. reflexivity.
  - apply Hu. vm_compute. reflexivity.
  - apply Hp. vm_compute. reflexivity.
Defined.

Lemma reopen_after_close_witness :
  let opened :=
    set_transport (Some (mkTransport 0 true))
                  (example_session "db" 22 GwNone ∅) in
  let closed := close opened (mkWorld [] 1) in
  let again := open example_env closed.1.1 closed.1.2 in
  again.2 = Ok tt /\ transport again.1.1 = Some (mkTransport 1 true)
  /\ length (flat_map connect_attempt (trace again.1.2)) = 1%nat.
Proof.
  intros opened closed again.
  destruct (reopen_after_close example_env opened (mkWorld [] 1)
              (mkSSHClient AutoAddPolicy) ∅ eq_refl eq_refl eq_refl eq_refl
              eq_refl)
    as (_ & Hok & Ht & Hattempts).
  fold closed in Hok, Ht, Hattempts. fold again in Hok, Ht, Hattempts.
  split; [exact Hok|]. split; [exact Ht|]. rewrite Hattempts. reflexivity.
Defined.

(** ** Forwarding, beyond the teardown *)

Section ForwardMore.
Context (env : Env).

(** X16: an exception of the block inside [forward_remote] is the one
    that leaves the scope, and a block that returns makes the scope
    return: the teardown of [forward_remote] raises nothing of its own.
    When the transport refuses the forwarding request, the block never
    runs and the refusal is raised, after [cancel_port_forward] has been
    called all the same. *)
Theorem forward_remote_outcome remote_port local_port remote_host local_host
    scope self w self1 w1 :
  open env self w = (self1, w1, Ok tt) ->
  let res := forward_remote env remote_port local_port remote_host local_host
               scope self w in
  match request_port_forward_raises env remote_host remote_port with
  | None => res.2 = remote_block scope
  | Some e =>
      res.2 = Raise e
      /\ exists t, transport self1 = Some t /\
           trace res.1.2
           = (trace w1 ++
              [EvRequestPortForwardFailed (transport_id t) remote_host
                                          remote_port e;
               EvCancelPortForward (transport_id t) remote_host
                                   remote_port])%list
  end.
Proof.
  intros Hopen res. subst res.
  destruct (is_connected_transport _ (open_Ok_connected env _ _ _ _ Hopen))
    as (t & Ht & _).
  unfold forward_remote, opens. rewrite Hopen. cbn zeta.
  unfold try_finally, forward_remote_body, forward_remote_teardown.
  rewrite Ht.
  destruct (request_port_forward_raises env remote_host remote_port) as [e|].
  - cbn. split; [reflexivity|]. exists t. split; [reflexivity|].
    by rewrite <- app_assoc.
  - destruct (deliver env _ _ _ _) as [tunnels w2]. reflexivity.
Qed.

Lemma callback_success lh lp ch src dst tunnels w :
  sock_connect_raises env lh lp = None ->
  exists t w',
    callback env lh lp ch src dst (tunnels, w)
    = (((tunnels ++ [t])%list, w'), Ok tt)
    /\ tunnel_channel t = ch
    /\ flat_map started (trace w') = (flat_map started (trace w) ++ [t])%list.
Proof.
  intros He. unfold callback. rewrite He. do 2 eexists.
  split; [reflexivity|]. split; [reflexivity|].
  cbn. rewrite !flat_map_app. cbn. by rewrite !app_nil_r.
Qed.

Lemma callback_failure lh lp ch src dst tunnels w e :
  sock_connect_raises env lh lp = Some e ->
  exists w',
    callback env lh lp ch src dst (tunnels, w) = ((tunnels, w'), Raise e)
    /\ flat_map started (trace w') = flat_map started (trace w).
Proof.
  intros He. unfold callback. rewrite He. eexists. split; [reflexivity|].
  cbn. rewrite !flat_map_app. cbn. by rewrite !app_nil_r.
Qed.

(** X17: when the local end accepts connections, the handler builds one
    tunnel per inbound connection, in arrival order and each around its
    own channel, and every tunnel it starts is in the shared list; when
    the local end refuses, the list stays as it was and no tunnel is
    started. *)
Theorem deliver_pairs_channels lh lp conns tunnels w :
  let res := deliver env lh lp conns (tunnels, w) in
  (sock_connect_raises env lh lp = None ->
   map tunnel_channel res.1
   = (map tunnel_channel tunnels ++ map in_channel conns)%list
   /\ map tunnel_channel (flat_map started (trace res.2))
      = (map tunnel_channel (flat_map started (trace w))
         ++ map in_channel conns)%list)
  /\ (forall e, sock_connect_raises env lh lp = Some e ->
        res.1 = tunnels
        /\ flat_map started (trace res.2) = flat_map started (trace w)).
Proof.
  cbn zeta. revert tunnels w.
  induction conns as [|c cs IH]; intros tunnels w; cbn [deliver].
  - split; [intros _|intros e _]; cbn; by rewrite ?app_nil_r.
  - split.
    + intros He.
      destruct (callback_success lh lp (in_channel c) (in_src_addr_tup c)
                  (in_dst_addr_tup c) tunnels w He)
        as (t & w' & -> & Hch & Hst).
      cbn [fst].
      destruct (proj1 (IH (tunnels ++ [t])%list w') He) as [IH1 IH2].
      rewrite IH1, IH2, Hst, !map_app. cbn. rewrite Hch, <- !app_assoc. done.
    + intros e He.
      destruct (callback_failure lh lp (in_channel c) (in_src_addr_tup c)
                  (in_dst_addr_tup c) tunnels w e He) as (w' & -> & Hst).
      cbn [fst]. destruct (proj2 (IH tunnels w') e He) as [IH1 IH2].
      by rewrite IH1, IH2, Hst.
Qed.
End ForwardMore.

Lemma forward_remote_outcome_witness :
  (forward_remote example_env 8080 None "127.0.0.1" "localhost"
     (mkRemoteScope example_inbound (Raise (UserException "boom")))
     (example_session "db" 22 GwNone ∅) empty_world).2
  = Raise (UserException "boom").
Proof.
  refine (forward_remote_outcome example_env 8080 None "127.0.0.1" "localhost"
            (mkRemoteScope example_inbound (Raise (UserException "boom")))
            (example_session "db" 22 GwNone ∅) empty_world
            (set_transport (Some (mkTransport 0 true))
                           (example_session "db" 22 GwNone ∅))
            _ _).
  vm_compute. reflexivity.
Defined.

Lemma deliver_pairs_channels_witness :
  map tunnel_channel
      (deliver example_env "localhost" 8080 example_inbound
               ([], empty_world)).1
  = map in_channel example_inbound
  /\ (deliver example_env "localhost" 9 example_inbound ([], empty_world)).1
     = [].
Proof.
  split.
  - apply (proj1 (deliver_pairs_channels example_env "localhost" 8080
                    example_inbound [] empty_world) eq_refl).
  - apply (proj2 (deliver_pairs_channels example_env "localhost" 9
                    example_inbound [] empty_world)
             (SocketError "Connection refused") eq_refl).
Defined.

(** ** Groups *)

(** A list has at most as many distinct members as it is long, and fewer
    when some member is repeated. *)
Lemma size_list_to_set_le `{Countable K} (l : list K) :
  (size (list_to_set l : gset K) <= length l)%nat
  /\ (~ NoDup l -> (size (list_to_set l : gset K) < length l)%nat).
Proof.
  induction l as [|x l [IH1 IH2]]; cbn.
  - split; [by rewrite size_empty|]. intros Hn. destruct Hn. constructor.
  - destruct (decide (x ∈ l)) as [Hin|Hnin].
    + assert (Heq : ({[x]} ∪ list_to_set l : gset K) = list_to_set l).
      { apply subseteq_union_1_L. apply singleton_subseteq_l.
        by apply elem_of_list_to_set. }
      rewrite Heq. split; [lia|]. intros _. lia.
    + rewrite size_union
        by (apply disjoint_singleton_l; by rewrite elem_of_list_to_set).
      rewrite size_singleton. split; [lia|].
      intros Hn.
      assert (Hl : ~ NoDup l) by (intros Hnd; apply Hn; by constructor).
      specialize (IH2 Hl). lia.
Qed.

Section GroupFacts.
Context (env : Env).

Lemma run_Ok command self w self1 w1 :
  run env command self w = (self1, w1, Ok tt) ->
  is_connected self1 = true /\ _identity self1 = _identity self.
Proof.
  unfold run, opens. pose proof (open_parameters env self w) as Hp.
  destruct (open env self w) as [[s0 w0] [[]|e]] eqn:Hopen; [|discriminate].
  pose proof (open_Ok_connected env _ _ _ _ Hopen) as Hc.
  destruct (remote_run_raises env command); [discriminate|].
  intros [= <- <-]. split; [exact Hc|]. by apply parameters_identity.
Qed.

Lemma Group_run_loop_Ok command group :
  forall acc w group' w' result,
    Group_run_loop env command group acc w = (group', w', Ok result) ->
    dom result = dom acc ∪ list_to_set (map _identity group)
    /\ map _identity group' = map _identity group
    /\ Forall (fun c => is_connected c = true) group'.
Proof.
  induction group as [|c cs IH]; intros acc w group' w' result;
    cbn [Group_run_loop].
  - intros [= <- <- <-]. cbn. split; [by rewrite union_empty_r_L|].
    split; [done|constructor].
  - destruct (run env command c w) as [[c1 w1] [[]|e]] eqn:Hrun;
      [|discriminate].
    destruct (run_Ok _ _ _ _ _ Hrun) as (Hc & Hid).
    destruct (Group_run_loop env command cs _ w1) as [[cs' w2] r] eqn:Hloop.
    intros [= <- <- ->].
    destruct (IH _ _ _ _ _ Hloop) as (Hd & Hids & Hall).
    split; [|split].
    + rewrite Hd, dom_insert_L, Hid. cbn.
      rewrite (comm_L (∪) {[_identity c]} (dom acc)).
      by rewrite <- (assoc_L (∪)).
    + cbn. by rewrite Hid, Hids.
    + by constructor.
Qed.

(** X18: when [Group.run] returns, the keys of its result are the
    identities of the members, every member is connected, and the
    identities are unchanged; members with the same host, user and port
    share one key, so the result is smaller than the group as soon as two
    members have the same identity. *)
Theorem Group_run_keys command group w group' w' result :
  Group_run env command group w = (group', w', Ok result) ->
  dom result = list_to_set (map _identity group)
  /\ map _identity group' = map _identity group
  /\ Forall (fun c => is_connected c = true) group'
  /\ (size result <= length group)%nat
  /\ (~ NoDup (map _identity group) -> (size result < length group)%nat).
Proof.
  intros H.
  destruct (Group_run_loop_Ok _ _ _ _ _ _ _ H) as (Hd & Hids & Hall).
  rewrite dom_empty_L, union_empty_l_L in Hd.
  split; [exact Hd|]. split; [exact Hids|]. split; [exact Hall|].
  assert (Hsz : size result
                = size (list_to_set (map _identity group) : gset _)).
  { by rewrite <- Hd, size_dom. }
  rewrite Hsz. rewrite <- (length_map _identity group).
  apply size_list_to_set_le.
Qed.



(** X20: [Group(hosts)] holds one connection per host string, in the
    order given, each built by [Connection(host)] alone and none of them
    connected; [Group()] and [Group([])] are empty. *)
Theorem Group_init_builds fuel hosts :
  Group_init env fuel None = Ok []
  /\ Group_init env fuel (Some []) = Ok []
  /\ forall group,
       Group_init env fuel (Some hosts) = Ok group ->
       group
       = map (fun h => (new env fuel h None None None GwNone None None).1)
             hosts
       /\ Forall (fun h => (new env fuel h None None None GwNone None None).2
                           = Ok tt) hosts
       /\ Forall (fun c => is_connected c = false) group.
Proof.
  split; [reflexivity|]. split; [reflexivity|].
  assert (H : forall hosts group, connections_of env fuel hosts = Ok group ->
       group
       = map (fun h => (new env fuel h None None None GwNone None None).1)
             hosts
       /\ Forall (fun h => (new env fuel h None None None GwNone None None).2
                           = Ok tt) hosts
       /\ Forall (fun c => is_connected c = false) group).
  { clear hosts. induction hosts as [|h hs IH]; intros group; cbn.
    - intros [= <-]. repeat split; constructor.
    - destruct (new env fuel h None None None GwNone None None)
        as [c [[]|e]] eqn:Hn; [|discriminate]. cbn.
      destruct (connections_of env fuel hs) as [cs|e]; [|discriminate]. cbn.
      intros [= <-]. destruct (IH cs eq_refl) as (-> & Hall & Hnc).
      split; [reflexivity|].
      split; [constructor; [by rewrite Hn|exact Hall]|].
      constructor; [|exact Hnc].
      unfold new in Hn. destruct fuel as [|n]; [discriminate|].
      destruct (init_Ok env _ _ _ _ _ _ _ _ _ _ Hn)
        as (sh & _ & _ & _ & _ & _ & _ & _ & _ & _ & _ & _ & _ & Htr).
      unfold is_connected. by rewrite Htr. }
  intros group.
  destruct hosts as [|h hs]; [intros [= <-]; repeat split; constructor|].
  apply H.
Qed.
End GroupFacts.

Lemma Group_run_keys_witness :
  let group :=
    [ example_session "db" 22 GwNone ∅;
      example_session "web" 22 GwNone ∅;
      example_session "db" 22 (GwCommand "nc %h %p") ∅ ] in
  let res := Group_run example_env "uptime" group empty_world in
  match res.2 with
  | Ok result =>
      size result = 2%nat /\ Forall (fun c => is_connected c = true) res.1.1
  | Raise _ => False
  end.
Proof.
  intros group res.
  assert (Hok : match res.2 with Ok _ => True | Raise _ => False end).
  { vm_compute. exact I. }
  subst res.
  destruct (Group_run example_env "uptime" group empty_world)
    as [[group' w'] [result|e]] eqn:H; [|exact Hok].
  destruct (Group_run_keys example_env "uptime" group empty_world _ _ _ H)
    as (Hd & _ & Hall & _).
  split; [|exact Hall].
  rewrite <- size_dom, Hd. vm_compute. reflexivity.
Defined.


Lemma Group_init_builds_witness :
  match Group_init example_env 2 (Some ["admin@web:2200"; "db"]) with
  | Ok group =>
      map host group = [Some "web"; Some "db"]
      /\ Forall (fun c => is_connected c = false) group
  | Raise _ => False
  end.
Proof.
  assert (Hok : match Group_init example_env 2 (Some ["admin@web:2200"; "db"])
                with Ok _ => True | Raise _ => False end).
  { vm_compute. exact I. }
  destruct (Group_init example_env 2 (Some ["admin@web:2200"; "db"]))
    as [group|e] eqn:H; [|exact Hok].
  destruct (proj2 (proj2 (Group_init_builds example_env 2
                            ["admin@web:2200"; "db"])) group H)
    as (Hg & _ & Hnc).
  split; [|exact Hnc]. rewrite Hg. vm_compute. reflexivity.
Defined.

Example Group_run_leaves_later_members :
  let later := example_session "web" 22 GwNone ∅ in
  let res :=
    Group_run edge_env "uptime"
      [ example_session "db" 22 GwNone ∅; example_session "down" 22 GwNone ∅;
        later ] empty_world in
  last res.1.1 = Some later
  /\ length (flat_map connect_attempt (trace res.1.2)) = 2%nat
  /\ flat_map commands_run (trace res.1.2) = ["uptime"].
Proof. vm_compute. repeat split. Qed.
